(** * Decorator-to-runner mapping of [ClassTestUI]
    (packages/@testdeck/core/index.ts)

    A shallow embedding of the registration engine: the metadata the
    decorators attach to function objects, the decorators themselves, and
    the callback built by [suiteCallbackFromClass], which drives an abstract
    [TestRunner].  The runner is a recorder: every call it receives is
    appended to a trace, and an exception stops the callback while the calls
    issued so far stay in the trace. *)

From Stdlib Require Import List String Ascii ZArith NArith Bool Arith Lia.
From Stdlib Require Import DecimalString Permutation.
Import ListNotations.
Local Open Scope string_scope.
Local Open Scope list_scope.
Set Warnings "-register-all".

(** ** The parts of the JavaScript runtime the engine relies on *)

Module JS.

(** Values passed as [params: any]. *)
Inductive value : Type :=
| undefined
| null
| boolean (b : bool)
| number (n : Z)
| str (s : string)
| object (fields : list (string * value)).

(** Truthiness of an optional string: [undefined] and the empty string are
    falsy, every other string is truthy. *)
Definition truthy (s : option string) : bool :=
  match s with
  | Some s' => negb (s' =? "")
  | None => false
  end.

(** String conversion inside a template literal. *)
Definition to_string (s : option string) : string :=
  match s with
  | Some s' => s'
  | None => "undefined"
  end.

Definition string_of_nat (n : nat) : string :=
  NilZero.string_of_uint (Nat.to_uint n).

Definition digit_of_ascii (c : ascii) : option N :=
  let n := N_of_ascii c in
  if (48 <=? n)%N && (n <=? 57)%N then Some (n - 48)%N else None.

Fixpoint digits_value (acc : N) (s : string) : option N :=
  match s with
  | EmptyString => Some acc
  | String c rest =>
      match digit_of_ascii c with
      | Some d => digits_value (acc * 10 + d)%N rest
      | None => None
      end
  end.

(** A property key is an array index when it is the canonical decimal form
    of an integer in [0, 2^32 - 2]. *)
Definition array_index (key : string) : option N :=
  match key with
  | EmptyString => None
  | String c rest =>
      if (c =? "0")%char
      then match rest with EmptyString => Some 0%N | _ => None end
      else match digits_value 0 key with
           | Some n => if (n <? 2 ^ 32 - 1)%N then Some n else None
           | None => None
           end
  end.

Definition is_array_index (key : string) : bool :=
  match array_index key with Some _ => true | None => false end.

Section PropertyOrder.
Context {A : Type}.

(** The own properties of an ordinary object, in creation order. *)
Definition properties := list (string * A).

Definition get_own (key : string) (o : properties) : option A :=
  match find (fun kv => fst kv =? key) o with
  | Some kv => Some (snd kv)
  | None => None
  end.

Definition has_own (key : string) (o : properties) : bool :=
  existsb (fun kv => fst kv =? key) o.

Fixpoint insert_by_index (n : N) (kv : string * A)
  (sorted : list (N * (string * A))) : list (N * (string * A)) :=
  match sorted with
  | [] => [(n, kv)]
  | (m, kv') :: rest =>
      if (n <? m)%N then (n, kv) :: sorted
      else (m, kv') :: insert_by_index n kv rest
  end.

Fixpoint index_entries (o : properties) : list (N * (string * A)) :=
  match o with
  | [] => []
  | kv :: rest =>
      match array_index (fst kv) with
      | Some n => insert_by_index n kv (index_entries rest)
      | None => index_entries rest
      end
  end.

(** OrdinaryOwnPropertyKeys: array indices in ascending numeric order, then
    the other string keys in creation order.  Both
    [Object.getOwnPropertyNames] and [for ... in] enumerate in this order. *)
Definition own_entries (o : properties) : list (string * A) :=
  map snd (index_entries o)
  ++ filter (fun kv => negb (is_array_index (fst kv))) o.

Definition getOwnPropertyNames (o : properties) : list string :=
  map fst (own_entries o).

End PropertyOrder.
Arguments properties : clear implicits.

(** The properties every ordinary object inherits from [Object.prototype];
    each of them reads as a truthy value on an object literal. *)
Definition object_prototype_keys : list string :=
  [ "constructor"; "__defineGetter__"; "__defineSetter__"; "hasOwnProperty";
    "__lookupGetter__"; "__lookupSetter__"; "isPrototypeOf";
    "propertyIsEnumerable"; "toString"; "valueOf"; "__proto__";
    "toLocaleString" ].

Definition on_object_prototype (key : string) : bool :=
  existsb (String.eqb key) object_prototype_keys.

End JS.

(** ** Data model *)

(** [Execution] without its [undefined] member, which is [None]. *)
Inductive Execution : Type := pending | only | skip.

Record TestParams : Type := mkTestParams {
  tp_execution : option Execution;
  tp_name : option string;
  tp_params : JS.value
}.

(** A function object together with the metadata kept on it under the
    [__testdeck_*] keys.  [fn_code] identifies the function body and
    [fn_length] is [Function.length]. *)
Record FunctionObject : Type := mkFunction {
  fn_code : nat;
  fn_length : nat;
  nameSymbol : option string;
  parametersSymbol : option (list TestParams);
  nameForParametersSymbol : option (JS.value -> string);
  slowSymbol : option Z;
  timeoutSymbol : option Z;
  retriesSymbol : option Z;
  executionSymbol : option Execution
}.

(** A freshly declared function: no metadata. *)
Definition function (code arity : nat) : FunctionObject :=
  mkFunction code arity None None None None None None None.

Definition set_name (v : string) (f : FunctionObject) : FunctionObject :=
  mkFunction (fn_code f) (fn_length f) (Some v) (parametersSymbol f)
    (nameForParametersSymbol f) (slowSymbol f) (timeoutSymbol f)
    (retriesSymbol f) (executionSymbol f).

Definition set_parameters (v : list TestParams) (f : FunctionObject) : FunctionObject :=
  mkFunction (fn_code f) (fn_length f) (nameSymbol f) (Some v)
    (nameForParametersSymbol f) (slowSymbol f) (timeoutSymbol f)
    (retriesSymbol f) (executionSymbol f).

Definition set_nameForParameters (v : JS.value -> string) (f : FunctionObject) : FunctionObject :=
  mkFunction (fn_code f) (fn_length f) (nameSymbol f) (parametersSymbol f)
    (Some v) (slowSymbol f) (timeoutSymbol f)
    (retriesSymbol f) (executionSymbol f).

Definition set_slow (v : Z) (f : FunctionObject) : FunctionObject :=
  mkFunction (fn_code f) (fn_length f) (nameSymbol f) (parametersSymbol f)
    (nameForParametersSymbol f) (Some v) (timeoutSymbol f)
    (retriesSymbol f) (executionSymbol f).

Definition set_timeout (v : Z) (f : FunctionObject) : FunctionObject :=
  mkFunction (fn_code f) (fn_length f) (nameSymbol f) (parametersSymbol f)
    (nameForParametersSymbol f) (slowSymbol f) (Some v)
    (retriesSymbol f) (executionSymbol f).

Definition set_retries (v : Z) (f : FunctionObject) : FunctionObject :=
  mkFunction (fn_code f) (fn_length f) (nameSymbol f) (parametersSymbol f)
    (nameForParametersSymbol f) (slowSymbol f) (timeoutSymbol f)
    (Some v) (executionSymbol f).

Definition set_execution (v : Execution) (f : FunctionObject) : FunctionObject :=
  mkFunction (fn_code f) (fn_length f) (nameSymbol f) (parametersSymbol f)
    (nameForParametersSymbol f) (slowSymbol f) (timeoutSymbol f)
    (retriesSymbol f) (Some v).

(** A value stored on a prototype: a function, or data.  [TestInstance]
    types [before] and [after] as optional methods, so data under these two
    keys is outside the typed input and is read as an absent hook. *)
Inductive Property : Type :=
| PFun (f : FunctionObject)
| PData.

(** A class: its constructor (a function object carrying the class-level
    metadata), the own [__testdeck_suite] mark, its own static hooks, and
    the own properties of its prototype in declaration order.  The
    [constructor] property of the prototype is left out: it holds the class,
    which no decorator gives a [nameSymbol]. *)
Record TestClass : Type := mkClass {
  class_name : string;
  ctor : FunctionObject;
  suiteSymbol : bool;
  static_before : option FunctionObject;
  static_after : option FunctionObject;
  prototype : JS.properties Property
}.

(** [SuiteSettings], [TestSettings] and [LifecycleSettings] at run time: one
    object with whichever of the four fields were written. *)
Record Settings : Type := mkSettings {
  slow : option Z;
  timeout : option Z;
  retries : option Z;
  execution : option Execution
}.

Definition no_settings : Settings := mkSettings None None None None.

(** ** Reading settings *)

(** [(settings || (settings = {}))]: the object under construction, created
    on first use. *)
Definition settings_or_new (settings : option Settings) : Settings :=
  match settings with
  | Some s => s
  | None => no_settings
  end.

Definition getSettings (obj : FunctionObject) : option Settings :=
  let settings : option Settings := None in
  let settings :=
    match slowSymbol obj with
    | Some v =>
        let s := settings_or_new settings in
        Some (mkSettings (Some v) (timeout s) (retries s) (execution s))
    | None => settings
    end in
  let settings :=
    match timeoutSymbol obj with
    | Some v =>
        let s := settings_or_new settings in
        Some (mkSettings (slow s) (Some v) (retries s) (execution s))
    | None => settings
    end in
  let settings :=
    match retriesSymbol obj with
    | Some v =>
        let s := settings_or_new settings in
        Some (mkSettings (slow s) (timeout s) (Some v) (execution s))
    | None => settings
    end in
  let settings :=
    match executionSymbol obj with
    | Some v =>
        let s := settings_or_new settings in
        Some (mkSettings (slow s) (timeout s) (retries s) (Some v))
    | None => settings
    end in
  settings.

(** ** Decorators *)

(** A method decorator receives [(target, propertyKey, descriptor)] and
    writes on the function object [target[propertyKey]]; it is modelled by
    its effect on that function object. *)
Definition MethodDecorator : Type := string -> FunctionObject -> FunctionObject.

Definition apply_all (decorators : list MethodDecorator) : MethodDecorator :=
  fun propertyKey f => fold_left (fun g d => d propertyKey g) decorators f.

Definition tag_execution (execution : option Execution) (f : FunctionObject) : FunctionObject :=
  match execution with
  | Some e => set_execution e f
  | None => f
  end.

(** The three handlers of [makeTestFunction]: [@test], [@test(...decorators)]
    and [@test("name", ...decorators)]. *)
Definition testProperty (execution : option Execution) : MethodDecorator :=
  fun propertyKey f => tag_execution execution (set_name propertyKey f).

Definition testDecorator (execution : option Execution)
  (decorators : list MethodDecorator) : MethodDecorator :=
  fun propertyKey f =>
    tag_execution execution
      (apply_all decorators propertyKey (set_name propertyKey f)).

Definition testDecoratorNamed (execution : option Execution) (name : string)
  (decorators : list MethodDecorator) : MethodDecorator :=
  fun propertyKey f =>
    tag_execution execution
      (apply_all decorators propertyKey (set_name name f)).

(** [@params(params, name?)], and its [.skip], [.only], [.pending] forms. *)
Definition makeParamsFunction (execution : option Execution)
  (params : JS.value) (name : option string) : MethodDecorator :=
  fun propertyKey f =>
    let f := set_name propertyKey f in
    let f :=
      set_parameters
        (match parametersSymbol f with Some ps => ps | None => [] end) f in
    set_parameters
      (match parametersSymbol f with Some ps => ps | None => [] end
       ++ [mkTestParams execution name params]) f.

(** [@params.naming(nameForParameters)]. *)
Definition makeParamsNameFunction (nameForParameters : JS.value -> string) : MethodDecorator :=
  fun propertyKey f => set_nameForParameters nameForParameters f.

Inductive OptionKey : Type := slowKey | timeoutKey | retriesKey.

Definition set_option (key : OptionKey) (value : Z) (f : FunctionObject) : FunctionObject :=
  match key with
  | slowKey => set_slow value f
  | timeoutKey => set_timeout value f
  | retriesKey => set_retries value f
  end.

(** [createExecutionOption(key)(value)] applied to a member
    ([proto[prop][key] = value]) and to a class ([target[key] = value]). *)
Definition createExecutionOption (key : OptionKey) (value : Z) : MethodDecorator :=
  fun prop f => set_option key value f.

Definition createExecutionOption_class (key : OptionKey) (value : Z)
  (target : TestClass) : TestClass :=
  mkClass (class_name target) (set_option key value (ctor target))
    (suiteSymbol target) (static_before target) (static_after target)
    (prototype target).

(** [createExecutionModifier(execution)]: the function [decorator], by the
    shape of the call it receives. *)
Inductive ModifierCall : Type :=
| call_condition (target : option bool)
| call_class (target : TestClass)
| call_member (propertyKey : string) (f : FunctionObject).

Inductive ModifierResult : Type :=
| return_decorator
| return_noop
| wrote_class (target : TestClass)
| wrote_member (f : FunctionObject).

Definition createExecutionModifier (execution : Execution)
  (call : ModifierCall) : ModifierResult :=
  match call with
  | call_condition target =>
      (* typeof target === "undefined" || typeof target === "boolean" *)
      if match target with Some b => b | None => false end
      then return_decorator
      else return_noop
  | call_class target =>
      (* arguments.length === 1 *)
      wrote_class
        (mkClass (class_name target) (set_execution execution (ctor target))
           (suiteSymbol target) (static_before target) (static_after target)
           (prototype target))
  | call_member propertyKey f =>
      wrote_member (set_execution execution f)
  end.

Definition noop : MethodDecorator := fun propertyKey f => f.

(** [@only] written bare on a method. *)
Definition modifier_decorator (execution : Execution) : MethodDecorator :=
  fun propertyKey f =>
    match createExecutionModifier execution (call_member propertyKey f) with
    | wrote_member g => g
    | _ => f
    end.

(** [@only(condition)], and [@only()] when the condition is [None]: the
    decorator returned by the call is then applied to the method. *)
Definition modifier_condition (execution : Execution)
  (condition : option bool) : MethodDecorator :=
  match createExecutionModifier execution (call_condition condition) with
  | return_decorator => modifier_decorator execution
  | _ => noop
  end.

(** The decorator expressions a method can carry. *)
Inductive Decorator : Type :=
| test_bare (execution : option Execution)
| test_with (execution : option Execution) (decorators : list Decorator)
| test_named (execution : option Execution) (name : string) (decorators : list Decorator)
| params (execution : option Execution) (value : JS.value) (name : option string)
| params_naming (nameForParameters : JS.value -> string)
| execution_option (key : OptionKey) (value : Z)
| modifier (execution : Execution)
| modifier_if (execution : Execution) (condition : option bool).

Fixpoint denote (d : Decorator) : MethodDecorator :=
  match d with
  | test_bare execution => testProperty execution
  | test_with execution decorators =>
      testDecorator execution (map denote decorators)
  | test_named execution name decorators =>
      testDecoratorNamed execution name (map denote decorators)
  | params execution value name => makeParamsFunction execution value name
  | params_naming nameForParameters => makeParamsNameFunction nameForParameters
  | execution_option key value => createExecutionOption key value
  | modifier execution => modifier_decorator execution
  | modifier_if execution condition => modifier_condition execution condition
  end.

(** Decorators written above a method, top to bottom, are applied bottom-up:
    the one closest to the method first. *)
Definition decorate (decorators : list Decorator) (propertyKey : string)
  (f : FunctionObject) : FunctionObject :=
  fold_right (fun d g => denote d propertyKey g) f decorators.

(** ** The runner and the registration monad *)

(** The closures handed to the runner.  [done] tells whether the closure
    takes the completion callback and forwards it.  Hook closures go
    through [wrap], which only copies the name and [toString] of the hook
    onto the closure. *)
Inductive Callback : Type :=
| setup_instance
| teardown_instance
| static_hook (hook : FunctionObject) (done : bool)
| instance_hook (hook : FunctionObject) (done : bool)
| test_call (method : FunctionObject) (done : bool) (callArgs : list JS.value).

(** The body of the child suite of a parameterised method; it closes over
    [testName], [method] and [parameters]. *)
Inductive SuiteCallback : Type :=
| parameterised_tests (testName : string) (method : FunctionObject)
    (parameters : list TestParams).

Inductive RunnerCall : Type :=
| runner_suite (name : string) (callback : SuiteCallback) (settings : option Settings)
| runner_test (name : string) (callback : Callback) (settings : option Settings)
| runner_beforeAll (name : string) (callback : Callback) (settings : option Settings)
| runner_beforeEach (name : string) (callback : Callback) (settings : option Settings)
| runner_afterEach (name : string) (callback : Callback) (settings : option Settings)
| runner_afterAll (name : string) (callback : Callback) (settings : option Settings).

Inductive Error : Type :=
| ConfigurationError (message : string)
| TypeError.

(** A computation that issues runner calls and then returns or throws. *)
Definition Registration (A : Type) : Type := (list RunnerCall * (Error + A))%type.

Definition ret {A : Type} (a : A) : Registration A := ([], inr a).

Definition throw {A : Type} (e : Error) : Registration A := ([], inl e).

Definition call (c : RunnerCall) : Registration unit := ([c], inr tt).

Definition bind {A B : Type} (m : Registration A) (k : A -> Registration B) : Registration B :=
  match snd m with
  | inl e => (fst m, inl e)
  | inr a => (fst m ++ fst (k a), snd (k a))
  end.

Definition lift {A : Type} (r : Error + A) : Registration A := ([], r).

Declare Scope registration_scope.
Delimit Scope registration_scope with reg.
Notation "x <- m ;; k" := (bind m (fun x => k))
  (at level 61, m at next level, right associativity) : registration_scope.
Notation "m ;; k" := (bind m (fun _ => k))
  (at level 61, right associativity) : registration_scope.

Fixpoint forEach_from {A : Type} (i : nat) (body : A -> nat -> Registration unit)
  (l : list A) : Registration unit :=
  match l with
  | [] => ret tt
  | x :: rest => bind (body x i) (fun _ => forEach_from (S i) body rest)
  end.

Definition forEach {A : Type} (body : A -> nat -> Registration unit)
  (l : list A) : Registration unit :=
  forEach_from 0 body l.

Definition calls {A : Type} (m : Registration A) : list RunnerCall := fst m.

Definition outcome {A : Type} (m : Registration A) : Error + A := snd m.

(** ** The suite materializer: [suiteCallbackFromClass] *)

Section Materializer.
Local Open Scope registration_scope.

Definition isAsync (method : FunctionObject) : bool :=
  let isParameterised :=
    match parametersSymbol method with Some _ => true | None => false end in
  let length := fn_length method in
  (isParameterised && (1 <? length)%nat) || (negb isParameterised && (0 <? length)%nat).

Definition applyTestFunc (testName : string) (method : FunctionObject)
  (callArgs : list JS.value) (testSettings : option Settings) : Registration unit :=
  if isAsync method
  then call (runner_test testName (test_call method true callArgs) testSettings)
  else call (runner_test testName (test_call method false callArgs) testSettings).

(** The body of the [parameters.forEach] of [declareTestMethod]. *)
Definition declareParameterisedTest (testName : string) (method : FunctionObject)
  (parameterOptions : TestParams) (i : nat) : Registration unit :=
  let nameForParameters := nameForParametersSymbol method in
  let execution := tp_execution parameterOptions in
  let name := tp_name parameterOptions in
  let params := tp_params parameterOptions in
  let parametersTestName := (testName ++ "_" ++ JS.string_of_nat i)%string in
  let parametersTestName :=
    if JS.truthy name then JS.to_string name
    else match nameForParameters with
         | Some naming => naming params
         | None => parametersTestName
         end in
  applyTestFunc parametersTestName method [params]
    (Some (mkSettings None None None execution)).

(** What the runner gets when it invokes the callback of a child suite. *)
Definition invoke (callback : SuiteCallback) : Registration unit :=
  match callback with
  | parameterised_tests testName method parameters =>
      forEach (declareParameterisedTest testName method) parameters
  end.

(** [declareTestMethod(prototype, method)]; the first argument is not used.
    It is only reached with a method whose name is set, for which
    [JS.to_string] is the name itself. *)
Definition declareTestMethod (method : FunctionObject) : Registration unit :=
  let testName := JS.to_string (nameSymbol method) in
  match parametersSymbol method with
  | Some parameters =>
      call (runner_suite testName
              (parameterised_tests testName method parameters)
              (getSettings method))
  | None => applyTestFunc testName method [] (getSettings method)
  end.

(** [prototype[key]]: the first own property along the prototype chain,
    most-derived class first. *)
Fixpoint get_property (chain : list TestClass) (key : string) : option Property :=
  match chain with
  | [] => None
  | c :: up =>
      match JS.get_own key (prototype c) with
      | Some v => Some v
      | None => get_property up key
      end
  end.

Definition get_method (chain : list TestClass) (key : string) : option FunctionObject :=
  match get_property chain key with
  | Some (PFun f) => Some f
  | _ => None
  end.

(** [target.before] and [target.after]: static members are inherited along
    the chain of constructors. *)
Fixpoint get_static (member : TestClass -> option FunctionObject)
  (chain : list TestClass) : option FunctionObject :=
  match chain with
  | [] => None
  | c :: up =>
      match member c with
      | Some f => Some f
      | None => get_static member up
      end
  end.

(** [constructor[suiteSymbol]] for the first class of [chain], read through
    the chain of constructors. *)
Definition has_suiteSymbol (chain : list TestClass) : bool :=
  existsb suiteSymbol chain.

(** [collectedTests[key]] is truthy when the key was stored, and also when
    the object literal inherits it from [Object.prototype]. *)
Definition collected (collectedTests : JS.properties FunctionObject) (key : string) : bool :=
  JS.has_own key collectedTests || JS.on_object_prototype key.

(** The body of the [forEach] over the own property names. *)
Definition collect_key (chain : list TestClass)
  (collectedTests : JS.properties FunctionObject) (key : string)
  : JS.properties FunctionObject :=
  match get_property chain key with
  | Some (PFun method) =>
      if JS.truthy (nameSymbol method) && negb (collected collectedTests key)
      then collectedTests ++ [(key, method)]
      else collectedTests
  | _ => collectedTests
  end.

Definition suite_inheritance_message (sub super : TestClass) : string :=
  ("@suite " ++ class_name sub ++ " cannot be a subclass of @suite "
   ++ class_name super ++ ".")%string.

(** The [while (currentPrototype !== Object.prototype)] loop; [current] is
    what is left of the chain, [currentPrototype] first. *)
Fixpoint collect_loop (chain current : list TestClass)
  (collectedTests : JS.properties FunctionObject)
  : Error + JS.properties FunctionObject :=
  match current with
  | [] => inr collectedTests
  | currentPrototype :: up =>
      let collectedTests :=
        fold_left (collect_key chain)
          (JS.getOwnPropertyNames (prototype currentPrototype)) collectedTests in
      match up with
      | next :: _ =>
          if has_suiteSymbol up
          then inl (ConfigurationError
                      (suite_inheritance_message (hd next chain) next))
          else collect_loop chain up collectedTests
      | [] => inr collectedTests
      end
  end.

Definition collectTests (chain : list TestClass) : Error + JS.properties FunctionObject :=
  collect_loop chain chain [].

(** The callback [suiteCallbackFromClass(target)] returns, for a class
    [target] whose superclasses are [ancestors], nearest first. *)
Definition suiteCallbackFromClass (target : TestClass) (ancestors : list TestClass)
  : Registration unit :=
  let chain := target :: ancestors in
  let target_before := get_static static_before chain in
  let target_after := get_static static_after chain in
  let prototype_before := get_method chain "before" in
  let prototype_after := get_method chain "after" in
  match target_before with
  | Some before =>
      let settings := getSettings before in
      call (runner_beforeAll "static before"
              (static_hook before (isAsync before)) settings)
  | None => ret tt
  end ;;
  call (runner_beforeEach "setup instance" setup_instance None) ;;
  match prototype_before with
  | Some before =>
      call (runner_beforeEach "before"
              (instance_hook before (isAsync before)) (getSettings before))
  | None => ret tt
  end ;;
  collectedTests <- lift (collectTests chain) ;;
  forEach (fun kv _ => declareTestMethod (snd kv))
    (JS.own_entries collectedTests) ;;
  match prototype_after with
  | Some after =>
      call (runner_afterEach "after"
              (instance_hook after (isAsync after)) (getSettings after))
  | None => ret tt
  end ;;
  call (runner_afterEach "teardown instance" teardown_instance None) ;;
  match target_after with
  | Some after =>
      settings <-
        match target_before with
        | Some before => ret (getSettings before)
        | None => throw TypeError
        end ;;
      call (runner_afterAll "static after"
              (static_hook after (isAsync after)) settings)
  | None => ret tt
  end.

End Materializer.

(** ** Vocabulary of the statements *)

Definition is_test (c : RunnerCall) : bool :=
  match c with runner_test _ _ _ => true | _ => false end.

Definition is_suite (c : RunnerCall) : bool :=
  match c with runner_suite _ _ _ => true | _ => false end.

Definition is_setup (c : RunnerCall) : bool :=
  match c with runner_beforeEach _ setup_instance _ => true | _ => false end.

Definition is_teardown (c : RunnerCall) : bool :=
  match c with runner_afterEach _ teardown_instance _ => true | _ => false end.

(** The methods of a prototype that carry test-name metadata, in declaration
    order; a method carries a test name when [method[nameSymbol]] is truthy. *)
Definition test_methods (o : JS.properties Property) : list (string * FunctionObject) :=
  flat_map
    (fun kv =>
       match snd kv with
       | PFun f => if JS.truthy (nameSymbol f) then [(fst kv, f)] else []
       | PData => []
       end) o.


(** The collected methods in the order the final [for ... in] visits them;
    empty when the prototype walk throws. *)
Definition registered (target : TestClass) (ancestors : list TestClass)
  : list (string * FunctionObject) :=
  match collectTests (target :: ancestors) with
  | inr collectedTests => JS.own_entries collectedTests
  | inl _ => []
  end.

Definition unset (f : FunctionObject) : bool :=
  match slowSymbol f, timeoutSymbol f, retriesSymbol f, executionSymbol f with
  | None, None, None, None => true
  | _, _, _, _ => false
  end.

(** The calls issued before and after the test declarations. *)
Definition static_before_calls (chain : list TestClass) : list RunnerCall :=
  match get_static static_before chain with
  | Some before =>
      [runner_beforeAll "static before" (static_hook before (isAsync before))
         (getSettings before)]
  | None => []
  end.

Definition instance_before_calls (chain : list TestClass) : list RunnerCall :=
  match get_method chain "before" with
  | Some before =>
      [runner_beforeEach "before" (instance_hook before (isAsync before))
         (getSettings before)]
  | None => []
  end.

Definition instance_after_calls (chain : list TestClass) : list RunnerCall :=
  match get_method chain "after" with
  | Some after =>
      [runner_afterEach "after" (instance_hook after (isAsync after))
         (getSettings after)]
  | None => []
  end.

Definition static_after_calls (chain : list TestClass) : list RunnerCall :=
  match get_static static_after chain, get_static static_before chain with
  | Some after, Some before =>
      [runner_afterAll "static after" (static_hook after (isAsync after))
         (getSettings before)]
  | _, _ => []
  end.

Definition prologue (chain : list TestClass) : list RunnerCall :=
  static_before_calls chain
  ++ [runner_beforeEach "setup instance" setup_instance None]
  ++ instance_before_calls chain.

Definition epilogue (chain : list TestClass) : list RunnerCall :=
  instance_after_calls chain
  ++ [runner_afterEach "teardown instance" teardown_instance None]
  ++ static_after_calls chain.

Definition declarations (entries : list (string * FunctionObject)) : list RunnerCall :=
  flat_map (fun kv => calls (declareTestMethod (snd kv))) entries.


Definition own_names (c : TestClass) : list string :=
  JS.getOwnPropertyNames (prototype c).

(** The invariant of [collectedTests] during the walk: one entry per key,
    each holding what [prototype[key]] resolves to. *)
Definition sound (chain : list TestClass)
  (collectedTests : JS.properties FunctionObject) : Prop :=
  NoDup (map fst collectedTests)
  /\ forall key method, In (key, method) collectedTests ->
       get_property chain key = Some (PFun method).


(** A hook registration forwards what [getSettings] reads from the hook
    itself.  The static [after] registration is not covered. *)
Definition forwards_own_settings (c : RunnerCall) : Prop :=
  match c with
  | runner_beforeAll _ (static_hook hook _) settings
  | runner_beforeEach _ (instance_hook hook _) settings
  | runner_afterEach _ (instance_hook hook _) settings =>
      settings = getSettings hook
  | _ => True
  end.

(** A settings object restricted to the timing fields. *)
Definition timing_only (settings : option Settings) : bool :=
  match settings with
  | Some s =>
      match retries s, execution s with
      | None, None => true
      | _, _ => false
      end
  | None => true
  end.

Definition hook_timing_only (c : RunnerCall) : bool :=
  match c with
  | runner_beforeAll _ _ settings
  | runner_beforeEach _ _ settings
  | runner_afterEach _ _ settings
  | runner_afterAll _ _ settings => timing_only settings
  | _ => true
  end.



(** One [@params] annotation, given by the parameter set it declares. *)
Definition params_decorator (p : TestParams) : Decorator :=
  params (tp_execution p) (tp_params p) (tp_name p).

Fixpoint mapi_from {A B : Type} (i : nat) (f : nat -> A -> B) (l : list A) : list B :=
  match l with
  | [] => []
  | x :: rest => f i x :: mapi_from (S i) f rest
  end.

(** The name of a parameterised test as the specification words it: the
    name of the parameter set if present, else the naming function applied
    to the value, else [<testName>_<index>].  A name is present when it is
    a non-empty string. *)
Definition priority_name (testName : string) (naming : option (JS.value -> string))
  (i : nat) (p : TestParams) : string :=
  match tp_name p with
  | Some name =>
      if name =? "" then
        match naming with
        | Some f => f (tp_params p)
        | None => (testName ++ "_" ++ JS.string_of_nat i)%string
        end
      else name
  | None =>
      match naming with
      | Some f => f (tp_params p)
      | None => (testName ++ "_" ++ JS.string_of_nat i)%string
      end
  end.

Definition parameter_test (testName : string) (method : FunctionObject)
  (i : nat) (p : TestParams) : RunnerCall :=
  runner_test
    (priority_name testName (nameForParametersSymbol method) i p)
    (test_call method (isAsync method) [tp_params p])
    (Some (mkSettings None None None (tp_execution p))).


(** ** Classes used as concrete inputs *)

Module Fixtures.

(** [@suite class A { @test one() {} @test two() {} helper() {} }] *)
Definition A : TestClass :=
  mkClass "A" (function 0 0) true None None
    [ ("one", PFun (decorate [test_bare None] "one" (function 1 0)));
      ("two", PFun (decorate [test_bare None] "two" (function 2 0)));
      ("helper", PFun (function 3 0)) ].




(** [@suite class Printable { @test toString() {} }] *)
Definition Printable : TestClass :=
  mkClass "Printable" (function 0 0) true None None
    [ ("toString", PFun (decorate [test_bare None] "toString" (function 1 0))) ].

(** [@suite class Base { @test inherited() {} }] and
    [@suite class Derived extends Base { @test own() {} }] *)
Definition Base : TestClass :=
  mkClass "Base" (function 0 0) true None None
    [ ("inherited", PFun (decorate [test_bare None] "inherited" (function 1 0))) ].

Definition Derived : TestClass :=
  mkClass "Derived" (function 0 0) true None None
    [ ("own", PFun (decorate [test_bare None] "own" (function 2 0))) ].

(** [@suite class Hooks { @timeout(30000) static before() {}
    @slow(5) static after(done) {} @test one() {} }] *)
Definition Hooks_before : FunctionObject :=
  decorate [execution_option timeoutKey 30000] "before" (function 1 0).

Definition Hooks_after : FunctionObject :=
  decorate [execution_option slowKey 5] "after" (function 2 1).

Definition Hooks : TestClass :=
  mkClass "Hooks" (function 0 0) true (Some Hooks_before) (Some Hooks_after)
    [ ("one", PFun (decorate [test_bare None] "one" (function 3 0))) ].

(** [@suite class OnlyAfter { static after() {} @test one() {} }] *)
Definition OnlyAfter : TestClass :=
  mkClass "OnlyAfter" (function 0 0) true None (Some (function 1 0))
    [ ("one", PFun (decorate [test_bare None] "one" (function 2 0))) ].

(** [@suite class Retried { @retries(3) @skip before() {} @test one() {} }] *)
Definition Retried_before : FunctionObject :=
  decorate [execution_option retriesKey 3; modifier skip] "before" (function 1 0).

Definition Retried : TestClass :=
  mkClass "Retried" (function 0 0) true None None
    [ ("before", PFun Retried_before);
      ("one", PFun (decorate [test_bare None] "one" (function 2 0))) ].

(** [@params(1) @params(2) run(value) {}], top to bottom. *)
Definition first_set : TestParams := mkTestParams None None (JS.number 1).

Definition second_set : TestParams := mkTestParams None None (JS.number 2).

Definition run : FunctionObject :=
  decorate [params_decorator first_set; params_decorator second_set] "run"
    (function 1 1).

(** [@params({ fixture: "setting-up" }, "readme followed custom ui")
     @params.naming(...) @params({ fixture: "module-usage" })
     @params.skip({ fixture: "custom-ui" }, "") runTest(params, done) {}] *)
Definition fixture_name (v : JS.value) : string :=
  match v with
  | JS.object (("fixture", JS.str s) :: _) => s
  | _ => "unnamed"
  end.

Definition runTest : FunctionObject :=
  decorate
    [ params None (JS.object [("fixture", JS.str "setting-up")])
        (Some "readme followed custom ui");
      params_naming fixture_name;
      params None (JS.object [("fixture", JS.str "module-usage")]) None;
      params (Some skip) (JS.object [("fixture", JS.str "custom-ui")]) (Some "") ]
    "runTest" (function 1 2).

Definition runTest_parameters : list TestParams :=
  [ mkTestParams (Some skip) (Some "")
      (JS.object [("fixture", JS.str "custom-ui")]);
    mkTestParams None None (JS.object [("fixture", JS.str "module-usage")]);
    mkTestParams None (Some "readme followed custom ui")
      (JS.object [("fixture", JS.str "setting-up")]) ].







End Fixtures.

Definition is_afterAll (c : RunnerCall) : bool :=
  match c with runner_afterAll _ _ _ => true | _ => false end.


(** ** Registering a class: [makeSuiteFunction] *)

(** Class-level metadata is read through the chain of constructors:
    [key in ctor] holds, and [ctor[key]] is found, on the nearest class of
    the chain that carries the key. *)
Fixpoint first_along {A : Type} (field : FunctionObject -> option A)
  (chain : list TestClass) : option A :=
  match chain with
  | [] => None
  | c :: up =>
      match field (ctor c) with
      | Some v => Some v
      | None => first_along field up
      end
  end.

(** The constructor of [target] as [getSettings] sees it. *)
Definition inherited_ctor (target : TestClass) (ancestors : list TestClass)
  : FunctionObject :=
  let chain := target :: ancestors in
  mkFunction (fn_code (ctor target)) (fn_length (ctor target))
    (first_along nameSymbol chain) (first_along parametersSymbol chain)
    (first_along nameForParametersSymbol chain)
    (first_along slowSymbol chain) (first_along timeoutSymbol chain)
    (first_along retriesSymbol chain) (first_along executionSymbol chain).

(** A class decorator, by its effect on the constructor it receives. *)
Definition ClassDecorator : Type := TestClass -> TestClass.

(** The class forms of the option and modifier decorators, called with the
    constructor as their only argument. *)
Definition option_trait (key : OptionKey) (value : Z) : ClassDecorator :=
  createExecutionOption_class key value.

Definition modifier_trait (execution : Execution) : ClassDecorator :=
  fun target =>
    match createExecutionModifier execution (call_class target) with
    | wrote_class c => c
    | _ => target
    end.

(** A function handed to [suite]: one that [markAsDecorator] marked, or any
    other function.  An unmarked function is both something [suite] may
    take for a class and something it may call as a decorator. *)
Inductive SuiteFunction : Type :=
| marked (decorator : ClassDecorator)
| unmarked (cls : TestClass) (superclasses : list TestClass)
    (decorator : ClassDecorator).

Definition as_decorator (f : SuiteFunction) : ClassDecorator :=
  match f with
  | marked d => d
  | unmarked _ _ d => d
  end.

(** The top-level [runner.suite(name, suiteCallbackFromClass(ctor),
    getSettings(ctor))]; its callback is [suiteCallbackFromClass] of the
    recorded class. *)
Inductive SuiteCall : Type :=
| runner_class_suite (name : string) (target : TestClass)
    (ancestors : list TestClass) (settings : option Settings).

Definition suite_class_callback (c : SuiteCall) : Registration unit :=
  match c with
  | runner_class_suite _ target ancestors _ =>
      suiteCallbackFromClass target ancestors
  end.

(** [ctor[suiteSymbol] = true; if (execution) ctor[executionSymbol] = execution]. *)
Definition mark_suite (execution : option Execution) (target : TestClass) : TestClass :=
  mkClass (class_name target) (tag_execution execution (ctor target)) true
    (static_before target) (static_after target) (prototype target).

(** The function returned at the end of [decorator]: it closes over
    [hasName], [name] and [decorators]. *)
Definition suite_closure (execution : option Execution) (name : option string)
  (decorators : list SuiteFunction) (target : TestClass)
  (ancestors : list TestClass) : TestClass * SuiteCall :=
  let target := mark_suite execution target in
  let target := fold_left (fun c d => as_decorator d c) decorators target in
  (target,
   runner_class_suite
     (match name with Some n => n | None => class_name target end)
     target ancestors (getSettings (inherited_ctor target ancestors))).

Inductive SuiteResult : Type :=
| returns_suite_decorator
| returns_closure (name : option string) (decorators : list SuiteFunction).

(** One call of the function [decorator] of [makeSuiteFunction(execution)],
    with the arguments its types allow: an optional leading name and
    functions.  It gives the [runner.suite] calls issued during the call,
    the class it marked, and what it returns. *)
Definition makeSuiteFunction (execution : option Execution)
  (name : option string) (functions : list SuiteFunction)
  : list SuiteCall * option TestClass * SuiteResult :=
  match name, functions with
  | None, [] => ([], None, returns_suite_decorator)
  | None, [unmarked cls superclasses d] =>
      let ctor := mark_suite execution cls in
      ([runner_class_suite (class_name ctor) ctor superclasses
          (getSettings (inherited_ctor ctor superclasses))],
       Some ctor,
       returns_closure None functions)
  | _, _ => ([], None, returns_closure name functions)
  end.

(** Applying what a call returned to a class, as a class decorator. *)
Definition apply_suite_result (execution : option Execution) (r : SuiteResult)
  (target : TestClass) (ancestors : list TestClass) : TestClass * list SuiteCall :=
  match r with
  | returns_suite_decorator =>
      match makeSuiteFunction execution None
              [unmarked target ancestors (fun c => c)] with
      | (suite_calls, Some ctor, _) => (ctor, suite_calls)
      | (suite_calls, None, _) => (target, suite_calls)
      end
  | returns_closure name decorators =>
      let (ctor, c) := suite_closure execution name decorators target ancestors in
      (ctor, [c])
  end.

(** ** Instantiating the class: [registerDI] and [createInstance] *)

Inductive Instance : Type :=
| constructed (system : nat) (class : string).

(** A dependency injection system; [di_identity] stands for the identity of
    the object, which [registerDI] compares with [===]. *)
Record DependencyInjectionSystem : Type := mkDI {
  di_identity : nat;
  handles : TestClass -> bool;
  create : TestClass -> Instance
}.

(** The initial entry of [dependencyInjectionSystems]: [new cls()]. *)
Definition default_system : DependencyInjectionSystem :=
  mkDI 0 (fun _ => true) (fun cls => constructed 0 (class_name cls)).

Definition registerDI (systems : list DependencyInjectionSystem)
  (instantiator : DependencyInjectionSystem) : list DependencyInjectionSystem :=
  if negb (existsb (fun di => di_identity di =? di_identity instantiator)%nat systems)
  then instantiator :: systems
  else systems.

(** The systems after a series of [registerDI] calls on a fresh [ClassTestUI]. *)
Definition registry (registrations : list DependencyInjectionSystem)
  : list DependencyInjectionSystem :=
  fold_left registerDI registrations [default_system].

(** [find] gives [undefined] when no system handles the class, and
    [di.create] then throws. *)
Definition createInstance (systems : list DependencyInjectionSystem)
  (testClass : TestClass) : Error + Instance :=
  match find (fun di => handles di testClass) systems with
  | Some di => inr (create di testClass)
  | None => inl TypeError
  end.

(** ** Running the closures *)

(** The variable [instance] of the suite callback: [undefined] until the
    first setup, an instance after a setup, [null] after a teardown. *)
Inductive InstanceVariable : Type :=
| not_created
| holds (i : Instance)
| cleared.

(** The value of [this] in a call. *)
Inductive Receiver : Type :=
| on_instance (v : InstanceVariable)
| on_class (name : string).

(** What running a closure does besides updating [instance].  In a call the
    completion callback, when passed, comes first and [callArgs] after it. *)
Inductive Effect : Type :=
| invokes (f : FunctionObject) (this : Receiver) (done : bool)
    (callArgs : list JS.value)
| throws (e : Error).

(** One closure run with the variable [instance] in state [instance]; it
    gives the new state and the effects. *)
Definition run_callback (systems : list DependencyInjectionSystem)
  (target : TestClass) (callback : Callback) (instance : InstanceVariable)
  : InstanceVariable * list Effect :=
  match callback with
  | setup_instance =>
      match createInstance systems target with
      | inr i => (holds i, [])
      | inl e => (instance, [throws e])
      end
  | teardown_instance => (cleared, [])
  | static_hook hook done =>
      (instance, [invokes hook (on_class (class_name target)) done []])
  | instance_hook hook done =>
      (instance, [invokes hook (on_instance instance) done []])
  | test_call method done callArgs =>
      (instance, [invokes method (on_instance instance) done callArgs])
  end.

Fixpoint run_callbacks (systems : list DependencyInjectionSystem)
  (target : TestClass) (schedule : list Callback) (instance : InstanceVariable)
  : InstanceVariable * list Effect :=
  match schedule with
  | [] => (instance, [])
  | callback :: rest =>
      let (instance', effects) := run_callback systems target callback instance in
      let (final, more) := run_callbacks systems target rest instance' in
      (final, effects ++ more)
  end.

Definition touches_instance (callback : Callback) : bool :=
  match callback with
  | setup_instance | teardown_instance => true
  | _ => false
  end.

(** Every call made on the variable [instance] sees it in state [v]. *)
Definition sees (v : InstanceVariable) (e : Effect) : Prop :=
  match e with
  | invokes _ (on_instance w) _ _ => w = v
  | _ => True
  end.

(** The closures a runner runs around one test, under the contract of
    [beforeEach] and [afterEach]: every [beforeEach] closure of the suite in
    registration order, the test, every [afterEach] closure in registration
    order. *)
Definition beforeEach_callbacks (trace : list RunnerCall) : list Callback :=
  flat_map (fun c => match c with runner_beforeEach _ cb _ => [cb] | _ => [] end) trace.

Definition afterEach_callbacks (trace : list RunnerCall) : list Callback :=
  flat_map (fun c => match c with runner_afterEach _ cb _ => [cb] | _ => [] end) trace.

Definition test_schedule (trace : list RunnerCall) (test : Callback) : list Callback :=
  beforeEach_callbacks trace ++ [test] ++ afterEach_callbacks trace.

(** ** The call shapes of [@test]: [testOverload] *)

(** An argument by what [typeof] says of it. *)
Inductive TestArgument : Type :=
| string_argument (s : string)
| function_argument (decorator : MethodDecorator)
| object_argument.

(** What the overloaded function does: run [testProperty] on its arguments,
    or return the decorator built by [testDecoratorNamed] or
    [testDecorator] from the stored arguments. *)
Inductive TestResult : Type :=
| applies_testProperty (arguments : list TestArgument)
| returns_decorator (name : option string) (decorators : list TestArgument).

Definition typeof_string (a : TestArgument) : bool :=
  match a with string_argument _ => true | _ => false end.

Definition typeof_function (a : TestArgument) : bool :=
  match a with function_argument _ => true | _ => false end.

(** The function [testOverload] returns. *)
Definition testOverload (arguments : list TestArgument) : TestResult :=
  match arguments with
  | a0 :: a1 :: _ =>
      if negb (typeof_string a0) && negb (typeof_function a0)
      then applies_testProperty arguments
      else match a0 with
           | string_argument name => returns_decorator (Some name) (tl arguments)
           | _ => returns_decorator None arguments
           end
  | [string_argument name] => returns_decorator (Some name) []
  | _ => returns_decorator None arguments
  end.

(** The stored arguments called one after the other as decorators; a stored
    argument that is not a function stops the loop with a [TypeError]. *)
Fixpoint call_stored (decorators : list TestArgument) (propertyKey : string)
  (f : FunctionObject) : FunctionObject * option Error :=
  match decorators with
  | [] => (f, None)
  | function_argument d :: rest => call_stored rest propertyKey (d propertyKey f)
  | _ :: _ => (f, Some TypeError)
  end.

(** The decorator returned by [testDecorator] ([name] absent) or
    [testDecoratorNamed], applied to the member [f] under [propertyKey]. *)
Definition apply_returned (execution : option Execution) (name : option string)
  (decorators : list TestArgument) (propertyKey : string) (f : FunctionObject)
  : FunctionObject * option Error :=
  let f := set_name (match name with Some n => n | None => propertyKey end) f in
  match call_stored decorators propertyKey f with
  | (g, None) => (tag_execution execution g, None)
  | (g, Some e) => (g, Some e)
  end.

(** [testProperty] run on [(target, propertyKey, descriptor)], for the
    member [f] that [target[propertyKey]] holds. *)
Definition apply_testProperty (execution : option Execution)
  (arguments : list TestArgument) (f : FunctionObject) : option FunctionObject :=
  match arguments with
  | _ :: string_argument propertyKey :: _ => Some (testProperty execution propertyKey f)
  | _ => None
  end.

(** ** Vocabulary of the further statements *)

Definition setting (key : OptionKey) (s : Settings) : option Z :=
  match key with
  | slowKey => slow s
  | timeoutKey => timeout s
  | retriesKey => retries s
  end.

Definition option_symbol (key : OptionKey) (f : FunctionObject) : option Z :=
  match key with
  | slowKey => slowSymbol f
  | timeoutKey => timeoutSymbol f
  | retriesKey => retriesSymbol f
  end.

Definition is_declaration (c : RunnerCall) : bool := is_test c || is_suite c.

(** A [runner.test] or [runner.suite] call issued for a method that carries
    a non-empty display name, under that name and with the settings read
    from that method. *)
Definition declared_by_name (c : RunnerCall) : Prop :=
  match c with
  | runner_test name (test_call method _ callArgs) settings =>
      nameSymbol method = Some name /\ name <> ""
      /\ parametersSymbol method = None /\ callArgs = []
      /\ settings = getSettings method
  | runner_test _ _ _ => False
  | runner_suite name (parameterised_tests testName method parameters) settings =>
      nameSymbol method = Some name /\ name <> "" /\ testName = name
      /\ parametersSymbol method = Some parameters
      /\ settings = getSettings method
  | _ => True
  end.

Definition settings_of (c : RunnerCall) : option Settings :=
  match c with
  | runner_suite _ _ s | runner_test _ _ s | runner_beforeAll _ _ s
  | runner_beforeEach _ _ s | runner_afterEach _ _ s | runner_afterAll _ _ s => s
  end.

Definition before_hook_callbacks (chain : list TestClass) : list Callback :=
  match get_method chain "before" with
  | Some before => [instance_hook before (isAsync before)]
  | None => []
  end.

Definition after_hook_callbacks (chain : list TestClass) : list Callback :=
  match get_method chain "after" with
  | Some after => [instance_hook after (isAsync after)]
  | None => []
  end.

Definition hook_effects (hooks : list Callback) (i : Instance) : list Effect :=
  flat_map
    (fun c =>
       match c with
       | instance_hook hook done => [invokes hook (on_instance (holds i)) done []]
       | _ => []
       end) hooks.

(** Two classes with the same name, static hooks and prototype. *)
Definition same_members (a b : TestClass) : Prop :=
  class_name a = class_name b
  /\ static_before a = static_before b
  /\ static_after a = static_after b
  /\ prototype a = prototype b.

(** The functions the library itself passes or accepts as class traits:
    an option decorator, an execution modifier, or the no-op a modifier
    called with [false] returns. *)
Definition library_trait (f : SuiteFunction) : Prop :=
  (exists key value, as_decorator f = option_trait key value)
  \/ (exists execution, as_decorator f = modifier_trait execution)
  \/ as_decorator f = (fun c => c).

Definition settings_of_suite (c : SuiteCall) : option Settings :=
  match c with runner_class_suite _ _ _ s => s end.

(** ** Further concrete inputs *)

Module Examples.

(** A system in the manner of the typedi adapter: it handles one class. *)
Definition container : DependencyInjectionSystem :=
  mkDI 1 (fun cls => class_name cls =? "Hooks")
    (fun cls => constructed 1 (class_name cls)).

(** The method [one] of [Fixtures.Retried]. *)
Definition one : FunctionObject :=
  decorate [test_bare None] "one" (function 2 0).

(** [@suite(timeout(200000), slow(10000))
     class SettingUpPackageIT extends AbstractPackageITBase { ... }] *)
Definition AbstractPackageITBase : TestClass :=
  mkClass "AbstractPackageITBase" (function 0 0) false None None
    [ ("runTest", PFun (function 1 1)) ].

Definition SettingUpPackageIT : TestClass :=
  mkClass "SettingUpPackageIT" (function 0 0) false None None
    [ ("runTest", PFun Fixtures.runTest) ].

Definition traits : list SuiteFunction :=
  [ marked (option_trait timeoutKey 200000); marked (option_trait slowKey 10000) ].

End Examples.

(** ** Property order *)

Section PropertyOrderFacts.
Context {A : Type}.
Implicit Types (o : JS.properties A) (kv : string * A).

Lemma insert_by_index_perm n kv (sorted : list (N * (string * A))) :
  Permutation (JS.insert_by_index n kv sorted) ((n, kv) :: sorted).
Proof.
  induction sorted as [|[m kv'] rest IH]; simpl.
  - apply Permutation_refl.
  - destruct (n <? m)%N.
    + apply Permutation_refl.
    + eapply Permutation_trans; [apply perm_skip, IH | apply perm_swap].
Qed.

Lemma index_entries_perm o :
  Permutation (map snd (JS.index_entries o))
    (filter (fun kv => JS.is_array_index (fst kv)) o).
Proof.
  induction o as [|kv rest IH]; simpl.
  - apply Permutation_refl.
  - unfold JS.is_array_index at 1.
    destruct (JS.array_index (fst kv)) as [n|].
    + eapply Permutation_trans.
      * apply Permutation_map, insert_by_index_perm.
      * simpl. apply perm_skip, IH.
    + exact IH.
Qed.

Lemma filter_split_perm (P : string * A -> bool) o :
  Permutation (filter P o ++ filter (fun kv => negb (P kv)) o) o.
Proof.
  induction o as [|kv rest IH]; simpl.
  - apply Permutation_refl.
  - destruct (P kv); simpl.
    + apply perm_skip, IH.
    + apply Permutation_sym.
      apply Permutation_cons_app, Permutation_sym, IH.
Qed.

Lemma own_entries_perm o : Permutation (JS.own_entries o) o.
Proof.
  unfold JS.own_entries.
  eapply Permutation_trans; [| apply (filter_split_perm (fun kv => JS.is_array_index (fst kv)))].
  apply Permutation_app_tail, index_entries_perm.
Qed.




Lemma flat_map_nil {B C : Type} (g : B -> list C) (l : list B) :
  Forall (fun x => g x = []) l -> flat_map g l = [].
Proof.
  induction 1 as [|x rest Hx _ IH]; simpl; [reflexivity|].
  rewrite Hx, IH. reflexivity.
Qed.



End PropertyOrderFacts.

Example array_index_examples :
  map JS.array_index ["0"; "10"; "01"; "4294967294"; "4294967295"; "b"; ""; "1e3"]
  = [Some 0%N; Some 10%N; None; Some 4294967294%N; None; None; None; None].
Proof. reflexivity. Qed.

Example getOwnPropertyNames_example :
  JS.getOwnPropertyNames [("b", 1); ("10", 2); ("a", 3); ("9", 4)]
  = ["9"; "10"; "b"; "a"].
Proof. reflexivity. Qed.

(** ** The shape of a registration *)

Lemma applyTestFunc_eq testName method callArgs testSettings :
  applyTestFunc testName method callArgs testSettings
  = ([runner_test testName (test_call method (isAsync method) callArgs) testSettings],
     inr tt).
Proof. unfold applyTestFunc, call. destruct (isAsync method); reflexivity. Qed.

Lemma declareTestMethod_returns method :
  outcome (declareTestMethod method) = inr tt.
Proof.
  unfold declareTestMethod.
  destruct (parametersSymbol method); [reflexivity|].
  rewrite applyTestFunc_eq. reflexivity.
Qed.


Lemma forEach_declare entries :
  forEach (fun kv _ => declareTestMethod (snd kv)) entries
  = (declarations entries, inr tt).
Proof.
  unfold forEach, declarations. generalize 0.
  induction entries as [|kv rest IH]; intros i; simpl; [reflexivity|].
  unfold bind. pose proof (declareTestMethod_returns (snd kv)) as Hret.
  unfold outcome in Hret. rewrite Hret, (IH (S i)). reflexivity.
Qed.

Lemma callback_returns target ancestors collectedTests :
  collectTests (target :: ancestors) = inr collectedTests ->
  calls (suiteCallbackFromClass target ancestors)
  = prologue (target :: ancestors)
    ++ declarations (JS.own_entries collectedTests)
    ++ epilogue (target :: ancestors).
Proof.
  intros Hc. unfold suiteCallbackFromClass, prologue, epilogue,
    static_before_calls, instance_before_calls, instance_after_calls,
    static_after_calls.
  rewrite Hc.
  destruct (get_static static_before (target :: ancestors));
    destruct (get_method (target :: ancestors) "before");
    destruct (get_method (target :: ancestors) "after");
    destruct (get_static static_after (target :: ancestors));
    unfold bind, call, ret, lift, throw, calls; simpl;
    rewrite forEach_declare; simpl;
    rewrite ?app_nil_r, <- ?app_assoc; reflexivity.
Qed.

Lemma callback_throws target ancestors e :
  collectTests (target :: ancestors) = inl e ->
  suiteCallbackFromClass target ancestors = (prologue (target :: ancestors), inl e).
Proof.
  intros Hc. unfold suiteCallbackFromClass, prologue,
    static_before_calls, instance_before_calls.
  rewrite Hc.
  destruct (get_static static_before (target :: ancestors));
    destruct (get_method (target :: ancestors) "before");
    reflexivity.
Qed.

(** ** The prototype walk *)

Section OwnProperties.
Context {A : Type}.
Implicit Types (o : JS.properties A).


Lemma has_own_In key o : JS.has_own key o = true <-> In key (map fst o).
Proof.
  unfold JS.has_own. rewrite existsb_exists, in_map_iff. split.
  - intros [kv [Hin Heq]]. apply String.eqb_eq in Heq. exists kv. split; assumption.
  - intros [kv [Heq Hin]]. exists kv. split; [assumption|]. apply String.eqb_eq, Heq.
Qed.




Lemma filter_none {B : Type} (P : B -> bool) (l : list B) :
  (forall x, In x l -> P x = false) -> filter P l = [].
Proof.
  induction l as [|x rest IH]; intros H; simpl; [reflexivity|].
  rewrite (H x (or_introl eq_refl)). apply IH.
  intros y Hy. apply H. right. exact Hy.
Qed.


Lemma own_entries_NoDup o :
  NoDup (map fst o) -> NoDup (map fst (JS.own_entries o)).
Proof.
  intros H. eapply Permutation_NoDup; [| exact H].
  apply Permutation_map, Permutation_sym, own_entries_perm.
Qed.

Lemma own_entries_In kv o : In kv (JS.own_entries o) <-> In kv o.
Proof.
  split; intros H.
  - eapply Permutation_in; [apply own_entries_perm | exact H].
  - eapply Permutation_in; [apply Permutation_sym, own_entries_perm | exact H].
Qed.

End OwnProperties.

Section Walk.
Variable chain : list TestClass.
Implicit Types (acc : JS.properties FunctionObject) (key : string).




Lemma collect_key_cases acc key :
  collect_key chain acc key = acc
  \/ exists method,
       collect_key chain acc key = acc ++ [(key, method)]
       /\ get_property chain key = Some (PFun method)
       /\ JS.has_own key acc = false.
Proof.
  unfold collect_key, collected.
  destruct (get_property chain key) as [[method|]|]; try (left; reflexivity).
  destruct (JS.truthy (nameSymbol method)); simpl; [|left; reflexivity].
  destruct (JS.has_own key acc); simpl; [left; reflexivity|].
  destruct (JS.on_object_prototype key); simpl; [left; reflexivity|].
  right. exists method. repeat split; reflexivity.
Qed.

Lemma collect_key_sound acc key :
  sound chain acc -> sound chain (collect_key chain acc key).
Proof.
  intros [Hnd Hres].
  destruct (collect_key_cases acc key) as [-> | [method [-> [Hget Hfresh]]]].
  - split; assumption.
  - split.
    + rewrite map_app. simpl. apply NoDup_app; [exact Hnd | | ].
      * constructor; [intros [] | constructor].
      * intros k Hin [<- | []].
        apply has_own_In in Hin. congruence.
    + intros k m Hin. apply in_app_or in Hin. destruct Hin as [Hin | [Heq | []]].
      * apply Hres, Hin.
      * inversion Heq; subst. exact Hget.
Qed.



Lemma collect_keys_sound ks : forall acc,
  sound chain acc -> sound chain (fold_left (collect_key chain) ks acc).
Proof.
  induction ks as [|key rest IH]; intros acc H; simpl; [exact H|].
  apply IH, collect_key_sound, H.
Qed.



(** Every collected entry was declared by a truthy name. *)
Lemma collect_keys_named ks : forall acc,
  Forall (fun kv => JS.truthy (nameSymbol (snd kv)) = true) acc ->
  Forall (fun kv => JS.truthy (nameSymbol (snd kv)) = true)
    (fold_left (collect_key chain) ks acc).
Proof.
  induction ks as [|key rest IH]; intros acc H; simpl; [exact H|].
  apply IH. unfold collect_key.
  destruct (get_property chain key) as [[method|]|]; try exact H.
  destruct (JS.truthy (nameSymbol method)) eqn:Hname; simpl; [|exact H].
  destruct (negb (collected acc key)); [|exact H].
  apply Forall_app. split; [exact H|]. constructor; [exact Hname | constructor].
Qed.

Lemma collect_loop_named current : forall acc collectedTests,
  Forall (fun kv => JS.truthy (nameSymbol (snd kv)) = true) acc ->
  collect_loop chain current acc = inr collectedTests ->
  Forall (fun kv => JS.truthy (nameSymbol (snd kv)) = true) collectedTests.
Proof.
  induction current as [|c up IH]; intros acc collectedTests Hacc Hloop.
  - inversion Hloop; subst. exact Hacc.
  - simpl in Hloop.
    pose proof (collect_keys_named (JS.getOwnPropertyNames (prototype c)) acc Hacc)
      as Hstep.
    destruct up as [|next up'].
    + inversion Hloop; subst. exact Hstep.
    + destruct (has_suiteSymbol (next :: up')); [discriminate Hloop|].
      apply (IH _ _ Hstep Hloop).
Qed.

(** Without a suite-marked superclass the loop runs to the end of the chain. *)
Lemma collect_loop_no_suite current : forall acc,
  has_suiteSymbol (tl current) = false ->
  collect_loop chain current acc
  = inr (fold_left (collect_key chain) (flat_map own_names current) acc).
Proof.
  induction current as [|c up IH]; intros acc Hns; [reflexivity|].
  change (flat_map own_names (c :: up)) with (own_names c ++ flat_map own_names up).
  rewrite fold_left_app.
  destruct up as [|next up'].
  - reflexivity.
  - change (tl (c :: next :: up')) with (next :: up') in Hns.
    change (collect_loop chain (c :: next :: up') acc)
      with (if has_suiteSymbol (next :: up')
            then inl (ConfigurationError
                        (suite_inheritance_message (hd next chain) next))
            else collect_loop chain (next :: up')
                   (fold_left (collect_key chain) (own_names c) acc)).
    rewrite Hns. apply IH.
    unfold has_suiteSymbol in *. simpl in Hns.
    apply orb_false_iff in Hns. apply Hns.
Qed.

(** With one, it throws at the end of the first iteration. *)
Lemma collect_loop_suite c next up acc :
  has_suiteSymbol (next :: up) = true ->
  collect_loop chain (c :: next :: up) acc
  = inl (ConfigurationError (suite_inheritance_message (hd next chain) next)).
Proof.
  intros H.
  change (collect_loop chain (c :: next :: up) acc)
    with (if has_suiteSymbol (next :: up)
          then inl (ConfigurationError
                      (suite_inheritance_message (hd next chain) next))
          else collect_loop chain (next :: up)
                 (fold_left (collect_key chain) (own_names c) acc)).
  rewrite H. reflexivity.
Qed.

End Walk.

(** ** A class that inherits no test *)




Lemma registered_no_suite target ancestors :
  has_suiteSymbol ancestors = false ->
  collectTests (target :: ancestors)
  = inr (fold_left (collect_key (target :: ancestors))
           (flat_map own_names (target :: ancestors)) []).
Proof. intros H. unfold collectTests. apply collect_loop_no_suite. exact H. Qed.











Lemma prologue_filter chain :
  filter is_test (prologue chain) = []
  /\ filter is_suite (prologue chain) = []
  /\ filter is_setup (prologue chain)
     = [runner_beforeEach "setup instance" setup_instance None]
  /\ filter is_teardown (prologue chain) = [].
Proof.
  unfold prologue, static_before_calls, instance_before_calls.
  destruct (get_static static_before chain);
    destruct (get_method chain "before"); repeat split; reflexivity.
Qed.




(** The example of the specification: class [A] registers "one" and "two". *)
Example A_registration :
  calls (suiteCallbackFromClass Fixtures.A [])
  = [ runner_beforeEach "setup instance" setup_instance None;
      runner_test "one"
        (test_call (decorate [test_bare None] "one" (function 1 0)) false []) None;
      runner_test "two"
        (test_call (decorate [test_bare None] "two" (function 2 0)) false []) None;
      runner_afterEach "teardown instance" teardown_instance None ].
Proof. reflexivity. Qed.


(** A test method named like a member of [Object.prototype] is looked up as
    already collected and is never registered. *)
Lemma object_prototype_key_not_registered :
  List.length (test_methods (prototype Fixtures.Printable)) = 1
  /\ filter is_test (calls (suiteCallbackFromClass Fixtures.Printable [])) = [].
Proof. split; reflexivity. Qed.

(** ** A suite-marked superclass *)

(** C2.  When a superclass of the registered class carries the suite mark,
    the callback throws the configuration error, and the calls issued up to
    the throw contain no [runner.test] (and no [runner.suite]) call. *)
Theorem C2_suite_superclass_rejected (target : TestClass) (ancestors : list TestClass) :
  (exists A, In A ancestors /\ suiteSymbol A = true) ->
  let registration := suiteCallbackFromClass target ancestors in
  (exists next,
     hd_error ancestors = Some next
     /\ outcome registration
        = inl (ConfigurationError (suite_inheritance_message target next)))
  /\ filter is_test (calls registration) = []
  /\ filter is_suite (calls registration) = [].
Proof.
  intros [A [Hin Hsuite]] registration.
  destruct ancestors as [|next up]; [contradiction|].
  assert (Hmark : has_suiteSymbol (next :: up) = true).
  { unfold has_suiteSymbol. apply existsb_exists. exists A. split; assumption. }
  assert (Hthrow : collectTests (target :: next :: up)
    = inl (ConfigurationError (suite_inheritance_message target next))).
  { unfold collectTests. rewrite collect_loop_suite by exact Hmark. reflexivity. }
  unfold registration. rewrite (callback_throws _ _ _ Hthrow).
  destruct (prologue_filter (target :: next :: up)) as [Hp1 [Hp2 _]].
  split; [|split; assumption].
  exists next. split; reflexivity.
Qed.

Lemma C2_suite_superclass_rejected_witness :
  let registration := suiteCallbackFromClass Fixtures.Derived [Fixtures.Base] in
  (exists next,
     hd_error [Fixtures.Base] = Some next
     /\ outcome registration
        = inl (ConfigurationError (suite_inheritance_message Fixtures.Derived next)))
  /\ filter is_test (calls registration) = []
  /\ filter is_suite (calls registration) = [].
Proof.
  apply (C2_suite_superclass_rejected Fixtures.Derived [Fixtures.Base]).
  exists Fixtures.Base. split; [simpl; left; reflexivity | reflexivity].
Defined.

(** ** Hook settings *)

Lemma getSettings_eq (f : FunctionObject) :
  getSettings f
  = if unset f then None
    else Some (mkSettings (slowSymbol f) (timeoutSymbol f) (retriesSymbol f)
                 (executionSymbol f)).
Proof.
  unfold getSettings, unset.
  destruct (slowSymbol f), (timeoutSymbol f), (retriesSymbol f),
    (executionSymbol f); reflexivity.
Qed.

(** The static [after] hook is registered with the settings of the static
    [before] hook. *)
Lemma static_after_settings target ancestors before after collectedTests :
  get_static static_before (target :: ancestors) = Some before ->
  get_static static_after (target :: ancestors) = Some after ->
  collectTests (target :: ancestors) = inr collectedTests ->
  filter is_afterAll (calls (suiteCallbackFromClass target ancestors))
  = [runner_afterAll "static after" (static_hook after (isAsync after))
       (getSettings before)].
Proof.
  intros Hb Ha Hc. rewrite (callback_returns _ _ _ Hc), !filter_app.
  assert (Hd : filter is_afterAll (declarations (JS.own_entries collectedTests)) = []).
  { apply filter_none. intros c Hin. unfold declarations in Hin.
    apply in_flat_map in Hin. destruct Hin as [kv [_ Hin]].
    unfold declareTestMethod in Hin.
    destruct (parametersSymbol (snd kv)).
    - destruct Hin as [<- | []]. reflexivity.
    - rewrite applyTestFunc_eq in Hin. destruct Hin as [<- | []]. reflexivity. }
  rewrite Hd. unfold prologue, epilogue, static_before_calls,
    instance_before_calls, instance_after_calls, static_after_calls.
  rewrite Hb, Ha.
  destruct (get_method (target :: ancestors) "before");
    destruct (get_method (target :: ancestors) "after"); reflexivity.
Qed.

(** C3 (evaluated at the failing input).  With [@timeout(30000)] on the
    static [before] and [@slow(5)] on the static [after], [runner.afterAll]
    receives the settings of the static [before]. *)
Theorem C3_static_after_receives_static_before_settings :
  filter is_afterAll (calls (suiteCallbackFromClass Fixtures.Hooks []))
  = [runner_afterAll "static after" (static_hook Fixtures.Hooks_after true)
       (Some (mkSettings None (Some 30000%Z) None None))]
  /\ getSettings Fixtures.Hooks_before
     = Some (mkSettings None (Some 30000%Z) None None)
  /\ getSettings Fixtures.Hooks_after
     = Some (mkSettings (Some 5%Z) None None None).
Proof. repeat split; reflexivity. Qed.

(** Without a static [before], reading its settings throws after every
    other call was issued, and [runner.afterAll] is never called. *)
Lemma static_after_without_static_before :
  outcome (suiteCallbackFromClass Fixtures.OnlyAfter []) = inl TypeError
  /\ filter is_afterAll (calls (suiteCallbackFromClass Fixtures.OnlyAfter [])) = [].
Proof. split; reflexivity. Qed.

Lemma declarations_kind entries :
  Forall (fun c => is_test c || is_suite c = true) (declarations entries).
Proof.
  unfold declarations. apply Forall_forall. intros c Hin.
  apply in_flat_map in Hin. destruct Hin as [kv [_ Hin]].
  unfold declareTestMethod in Hin.
  destruct (parametersSymbol (snd kv)).
  - destruct Hin as [<- | []]. reflexivity.
  - rewrite applyTestFunc_eq in Hin. destruct Hin as [<- | []]. reflexivity.
Qed.

Lemma prologue_forwards chain : Forall forwards_own_settings (prologue chain).
Proof.
  unfold prologue, static_before_calls, instance_before_calls.
  destruct (get_static static_before chain);
    destruct (get_method chain "before");
    repeat constructor.
Qed.

Lemma epilogue_forwards chain : Forall forwards_own_settings (epilogue chain).
Proof.
  unfold epilogue, static_after_calls, instance_after_calls.
  destruct (get_static static_before chain);
    destruct (get_static static_after chain);
    destruct (get_method chain "after");
    repeat constructor.
Qed.

(** Every registration is the prologue alone, or the prologue, the test
    declarations and the epilogue. *)
Lemma callback_calls_cases target ancestors :
  calls (suiteCallbackFromClass target ancestors) = prologue (target :: ancestors)
  \/ exists collectedTests,
       collectTests (target :: ancestors) = inr collectedTests
       /\ calls (suiteCallbackFromClass target ancestors)
          = prologue (target :: ancestors)
            ++ declarations (JS.own_entries collectedTests)
            ++ epilogue (target :: ancestors).
Proof.
  destruct (collectTests (target :: ancestors)) as [e | collectedTests] eqn:Hc.
  - left. rewrite (callback_throws _ _ _ Hc). reflexivity.
  - right. exists collectedTests. split; [reflexivity|].
    apply callback_returns, Hc.
Qed.

(** The hooks a class has are registered, with their own settings for the
    two [before] hooks. *)
Lemma before_hooks_registered target ancestors :
  (forall before,
     get_static static_before (target :: ancestors) = Some before ->
     In (runner_beforeAll "static before" (static_hook before (isAsync before))
           (getSettings before))
        (calls (suiteCallbackFromClass target ancestors)))
  /\ (forall before,
        get_method (target :: ancestors) "before" = Some before ->
        In (runner_beforeEach "before" (instance_hook before (isAsync before))
              (getSettings before))
           (calls (suiteCallbackFromClass target ancestors))).
Proof.
  assert (Hpre : forall c, In c (prologue (target :: ancestors)) ->
                 In c (calls (suiteCallbackFromClass target ancestors))).
  { intros c Hin.
    destruct (callback_calls_cases target ancestors) as [-> | [cs [_ ->]]];
      [exact Hin | apply in_or_app; left; exact Hin]. }
  split; intros before Hb; apply Hpre; unfold prologue,
    static_before_calls, instance_before_calls; rewrite Hb.
  - left. reflexivity.
  - apply in_or_app. right. right. left. reflexivity.
Qed.

(** C6 (as amended).  The static [before], instance [before] and instance
    [after] registrations forward exactly what [getSettings] reads from the
    hook method: nothing when the method carries none of slow, timeout,
    retries and execution, and otherwise an object with each of the four
    that is attached to it, retries and execution mode included. *)
Theorem C6_hooks_forward_getSettings (target : TestClass) (ancestors : list TestClass) :
  Forall forwards_own_settings (calls (suiteCallbackFromClass target ancestors))
  /\ forall hook,
       getSettings hook
       = if unset hook then None
         else Some (mkSettings (slowSymbol hook) (timeoutSymbol hook)
                      (retriesSymbol hook) (executionSymbol hook)).
Proof.
  split; [|apply getSettings_eq].
  destruct (callback_calls_cases target ancestors) as [-> | [c [_ ->]]].
  - apply prologue_forwards.
  - apply Forall_app. split; [apply prologue_forwards|].
    apply Forall_app. split; [|apply epilogue_forwards].
    eapply Forall_impl; [| apply declarations_kind].
    intros [] H; try discriminate H; exact I.
Qed.

(** The claim as worded fails: [@retries(3) @skip] on the instance [before]
    hook reach [runner.beforeEach]. *)
Lemma C6_timing_only_counterexample :
  In (runner_beforeEach "before" (instance_hook Fixtures.Retried_before false)
        (Some (mkSettings None None (Some 3%Z) (Some skip))))
     (calls (suiteCallbackFromClass Fixtures.Retried []))
  /\ forallb hook_timing_only (calls (suiteCallbackFromClass Fixtures.Retried []))
     = false.
Proof. split; [right; left; reflexivity | reflexivity]. Qed.

(** ** Parameterised methods *)

Lemma priority_name_eq testName method i p :
  (if JS.truthy (tp_name p) then JS.to_string (tp_name p)
   else match nameForParametersSymbol method with
        | Some naming => naming (tp_params p)
        | None => (testName ++ "_" ++ JS.string_of_nat i)%string
        end)
  = priority_name testName (nameForParametersSymbol method) i p.
Proof.
  unfold priority_name, JS.truthy, JS.to_string.
  destruct (tp_name p) as [name|]; [|reflexivity].
  destruct (name =? ""); reflexivity.
Qed.

Lemma declareParameterisedTest_eq testName method p i :
  declareParameterisedTest testName method p i
  = ([parameter_test testName method i p], inr tt).
Proof.
  unfold declareParameterisedTest, parameter_test.
  rewrite applyTestFunc_eq, priority_name_eq. reflexivity.
Qed.

Lemma invoke_eq testName method parameters :
  invoke (parameterised_tests testName method parameters)
  = (mapi_from 0 (parameter_test testName method) parameters, inr tt).
Proof.
  unfold invoke, forEach. generalize 0.
  induction parameters as [|p rest IH]; intros i; simpl; [reflexivity|].
  rewrite declareParameterisedTest_eq, (IH (S i)). reflexivity.
Qed.






(** The three names of the fixture: naming function for the empty and the
    absent name, own name for the last set. *)
Example runTest_names :
  map (fun c => match c with runner_test name _ _ => name | _ => "" end)
    (calls (invoke (parameterised_tests "runTest" Fixtures.runTest
                      Fixtures.runTest_parameters)))
  = ["custom-ui"; "module-usage"; "readme followed custom ui"].
Proof. reflexivity. Qed.

(** ** Asynchronous registrations *)





(** In the [Hooks] fixture the static [after(done)] hook takes the
    completion callback and the static [before()] does not. *)
Example Hooks_async :
  filter (fun c => is_afterAll c || match c with runner_beforeAll _ _ _ => true | _ => false end)
    (calls (suiteCallbackFromClass Fixtures.Hooks []))
  = [ runner_beforeAll "static before" (static_hook Fixtures.Hooks_before false)
        (getSettings Fixtures.Hooks_before);
      runner_afterAll "static after" (static_hook Fixtures.Hooks_after true)
        (getSettings Fixtures.Hooks_before) ].
Proof. reflexivity. Qed.


(** ** The order of parameter sets *)

Lemma denote_params_parameters (p : TestParams) key g :
  parametersSymbol (denote (params_decorator p) key g)
  = Some (match parametersSymbol g with Some ps => ps | None => [] end ++ [p]).
Proof. destruct p. reflexivity. Qed.

Lemma decorate_params_parameters key f (qs : list TestParams) :
  match parametersSymbol (decorate (map params_decorator qs) key f) with
  | Some ps => ps
  | None => []
  end
  = match parametersSymbol f with Some ps => ps | None => [] end ++ rev qs.
Proof.
  induction qs as [|q rest IH].
  - simpl. rewrite app_nil_r. reflexivity.
  - change (decorate (map params_decorator (q :: rest)) key f)
      with (denote (params_decorator q) key
              (decorate (map params_decorator rest) key f)).
    rewrite denote_params_parameters, IH. cbn [rev].
    rewrite <- app_assoc. reflexivity.
Qed.

Lemma denote_params_name (p : TestParams) key g :
  nameSymbol (denote (params_decorator p) key g) = Some key.
Proof. reflexivity. Qed.

(** C4 (as amended).  The parameter sets of K repeated [@params]
    annotations are stored in the order the decorators are applied, which
    is the reverse of their top-to-bottom order in the source: the child
    suite registers its K tests in that reversed order, and the index of
    the [<testName>_<index>] fallback counts along it. *)
Theorem C4_params_registered_in_application_order
  (key : string) (f : FunctionObject) (q : TestParams) (qs : list TestParams) :
  parametersSymbol f = None ->
  let method := decorate (map params_decorator (q :: qs)) key f in
  parametersSymbol method = Some (rev (q :: qs))
  /\ exists callback,
       calls (declareTestMethod method)
       = [runner_suite key callback (getSettings method)]
       /\ calls (invoke callback)
          = mapi_from 0 (parameter_test key method) (rev (q :: qs)).
Proof.
  intros Hfresh method.
  assert (Hps : parametersSymbol method = Some (rev (q :: qs))).
  { unfold method.
    change (decorate (map params_decorator (q :: qs)) key f)
      with (denote (params_decorator q) key
              (decorate (map params_decorator qs) key f)).
    rewrite denote_params_parameters, decorate_params_parameters, Hfresh.
    reflexivity. }
  split; [exact Hps|].
  exists (parameterised_tests key method (rev (q :: qs))).
  unfold declareTestMethod. rewrite Hps.
  assert (Hname : nameSymbol method = Some key) by reflexivity.
  rewrite Hname, invoke_eq. split; reflexivity.
Qed.

Lemma C4_params_registered_in_application_order_witness :
  parametersSymbol Fixtures.run = Some [Fixtures.second_set; Fixtures.first_set]
  /\ exists callback,
       calls (declareTestMethod Fixtures.run)
       = [runner_suite "run" callback (getSettings Fixtures.run)]
       /\ calls (invoke callback)
          = mapi_from 0 (parameter_test "run" Fixtures.run)
              [Fixtures.second_set; Fixtures.first_set].
Proof.
  apply (C4_params_registered_in_application_order "run" (function 1 1)
           Fixtures.first_set [Fixtures.second_set]).
  reflexivity.
Defined.

(** The claim as worded fails: of [@params(1)] written above [@params(2)],
    the test for 2 is registered first, under the name [run_0]. *)
Lemma C4_source_order_counterexample :
  calls (invoke (parameterised_tests "run" Fixtures.run
                   [Fixtures.second_set; Fixtures.first_set]))
  = [ runner_test "run_0" (test_call Fixtures.run false [JS.number 2])
        (Some no_settings);
      runner_test "run_1" (test_call Fixtures.run false [JS.number 1])
        (Some no_settings) ]
  /\ calls (declareTestMethod Fixtures.run)
     = [runner_suite "run"
          (parameterised_tests "run" Fixtures.run
             [Fixtures.second_set; Fixtures.first_set]) None]
  /\ calls (invoke (parameterised_tests "run" Fixtures.run
                      [Fixtures.second_set; Fixtures.first_set]))
     <> mapi_from 0 (parameter_test "run" Fixtures.run)
          [Fixtures.first_set; Fixtures.second_set].
Proof.
  split; [reflexivity|]. split; [reflexivity|].
  intros H. vm_compute in H. discriminate H.
Qed.

(** ** Display names *)







(** ** Overridden test methods *)




(** [declareTestMethod] is only reached with a truthy display name. *)
Lemma registered_named target ancestors :
  Forall (fun kv => JS.truthy (nameSymbol (snd kv)) = true)
    (registered target ancestors).
Proof.
  unfold registered.
  destruct (collectTests (target :: ancestors)) as [e|c] eqn:Hc; [constructor|].
  pose proof (collect_loop_named (target :: ancestors) (target :: ancestors)
                [] c (Forall_nil _) Hc) as Hnamed.
  rewrite Forall_forall in Hnamed. apply Forall_forall.
  intros kv Hin. apply Hnamed, own_entries_In, Hin.
Qed.

Lemma sound_nil chain : sound chain [].
Proof. split; [constructor | intros key method []]. Qed.




(** ** Execution modifiers *)

(** C10.  For each of [only], [pending] and [skip]: called with [false] the
    modifier returns the no-op decorator, which leaves the method and its
    execution mode as they were; called with [true] it returns itself, and
    applying that, like applying the bare modifier, sets the execution mode
    of the method to the mode of the modifier. *)
Theorem C10_conditional_execution_modifier
  (mode : Execution) (propertyKey : string) (f : FunctionObject) :
  createExecutionModifier mode (call_condition (Some false)) = return_noop
  /\ denote (modifier_if mode (Some false)) propertyKey f = f
  /\ executionSymbol (denote (modifier_if mode (Some false)) propertyKey
                        (function (fn_code f) (fn_length f))) = None
  /\ createExecutionModifier mode (call_condition (Some true)) = return_decorator
  /\ executionSymbol (denote (modifier_if mode (Some true)) propertyKey f)
     = Some mode
  /\ executionSymbol (denote (modifier mode) propertyKey f) = Some mode.
Proof. repeat split; reflexivity. Qed.

(** [@only()] without argument also returns the no-op decorator. *)
Example modifier_called_without_argument mode propertyKey f :
  denote (modifier_if mode None) propertyKey f = f.
Proof. reflexivity. Qed.

(** * Further properties of the engine *)

(** ** Settings written by the option decorators *)

Lemma unset_set_option key value g : unset (set_option key value g) = false.
Proof.
  destruct key; unfold unset; simpl;
    destruct (slowSymbol g), (timeoutSymbol g), (retriesSymbol g);
    reflexivity.
Qed.

(** X1.  An option annotation ([@slow], [@timeout], [@retries]) written
    above other annotations of a method decides the value [getSettings]
    reads for its key, whatever the annotations below wrote, and leaves
    the other three settings as they wrote them. *)
Theorem option_annotation_round_trip
  (key : OptionKey) (value : Z) (below : list Decorator)
  (propertyKey : string) (f : FunctionObject) :
  let method := decorate (execution_option key value :: below) propertyKey f in
  exists s,
    getSettings method = Some s
    /\ setting key s = Some value
    /\ (forall other, other <> key ->
          setting other s = option_symbol other (decorate below propertyKey f))
    /\ execution s = executionSymbol (decorate below propertyKey f).
Proof.
  intros method. unfold method.
  change (decorate (execution_option key value :: below) propertyKey f)
    with (set_option key value (decorate below propertyKey f)).
  set (g := decorate below propertyKey f).
  rewrite getSettings_eq, unset_set_option.
  destruct key; simpl; eexists; (split; [reflexivity|]);
    (split; [reflexivity|]); (split; [|reflexivity]);
    intros [] Hne; try reflexivity; contradiction.
Qed.

(** ** What a registration declares *)

Lemma collect_loop_fold chain current : forall acc collectedTests,
  collect_loop chain current acc = inr collectedTests ->
  exists keys, collectedTests = fold_left (collect_key chain) keys acc.
Proof.
  induction current as [|c up IH]; intros acc collectedTests Hloop.
  - inversion Hloop; subst. exists []. reflexivity.
  - simpl in Hloop. destruct up as [|next up'].
    + inversion Hloop; subst.
      exists (JS.getOwnPropertyNames (prototype c)). reflexivity.
    + destruct (has_suiteSymbol (next :: up')); [discriminate Hloop|].
      destruct (IH _ _ Hloop) as [keys Hkeys].
      exists (JS.getOwnPropertyNames (prototype c) ++ keys).
      rewrite fold_left_app. exact Hkeys.
Qed.

Lemma collect_keys_off_prototype chain keys : forall acc,
  Forall (fun kv => JS.on_object_prototype (fst kv) = false) acc ->
  Forall (fun kv => JS.on_object_prototype (fst kv) = false)
    (fold_left (collect_key chain) keys acc).
Proof.
  induction keys as [|key rest IH]; intros acc H; simpl; [exact H|].
  apply IH. unfold collect_key, collected.
  destruct (get_property chain key) as [[method|]|]; try exact H.
  destruct (JS.truthy (nameSymbol method)); simpl; [|exact H].
  destruct (JS.has_own key acc); simpl; [exact H|].
  destruct (JS.on_object_prototype key) eqn:Hproto; simpl; [exact H|].
  apply Forall_app. split; [exact H|]. constructor; [exact Hproto | constructor].
Qed.

Lemma filter_id {B : Type} (P : B -> bool) (l : list B) :
  Forall (fun x => P x = true) l -> filter P l = l.
Proof.
  induction 1 as [|x rest Hx _ IH]; simpl; [reflexivity|].
  rewrite Hx, IH. reflexivity.
Qed.

Lemma declarations_filter entries :
  filter is_declaration (declarations entries) = declarations entries.
Proof.
  apply filter_id. eapply Forall_impl; [| apply declarations_kind].
  intros c Hc. exact Hc.
Qed.

Lemma prologue_no_declaration chain :
  filter is_declaration (prologue chain) = [].
Proof.
  unfold prologue, static_before_calls, instance_before_calls.
  destruct (get_static static_before chain);
    destruct (get_method chain "before"); reflexivity.
Qed.

Lemma epilogue_no_declaration chain :
  filter is_declaration (epilogue chain) = [].
Proof.
  unfold epilogue, static_after_calls, instance_after_calls.
  destruct (get_static static_before chain);
    destruct (get_static static_after chain);
    destruct (get_method chain "after"); reflexivity.
Qed.

(** X2.  The [runner.test] and [runner.suite] calls of a registration are
    the declarations of the collected methods, one declaration per
    collected key, in the order of the final [for ... in]; when the
    prototype walk throws there is none. *)
Theorem declarations_of_registered (target : TestClass) (ancestors : list TestClass) :
  filter is_declaration (calls (suiteCallbackFromClass target ancestors))
  = declarations (registered target ancestors)
  /\ List.length (declarations (registered target ancestors))
     = List.length (registered target ancestors).
Proof.
  split.
  - unfold registered.
    destruct (collectTests (target :: ancestors)) as [e|c] eqn:Hc.
    + rewrite (callback_throws _ _ _ Hc). apply prologue_no_declaration.
    + rewrite (callback_returns _ _ _ Hc), !filter_app.
      rewrite prologue_no_declaration, epilogue_no_declaration,
        declarations_filter, app_nil_r.
      reflexivity.
  - unfold declarations.
    induction (registered target ancestors) as [|kv rest IH]; [reflexivity|].
    simpl. rewrite length_app, IH.
    unfold declareTestMethod.
    destruct (parametersSymbol (snd kv)); [reflexivity|].
    rewrite applyTestFunc_eq. reflexivity.
Qed.

Lemma truthy_name (o : option string) :
  JS.truthy o = true -> exists name, o = Some name /\ name <> "".
Proof.
  destruct o as [name|]; [|discriminate].
  simpl. intros H. exists name. split; [reflexivity|].
  intros ->. discriminate H.
Qed.

Lemma declarations_by_name entries :
  Forall (fun kv => JS.truthy (nameSymbol (snd kv)) = true) entries ->
  Forall declared_by_name (declarations entries).
Proof.
  intros Hnamed. unfold declarations. apply Forall_forall. intros c Hin.
  apply in_flat_map in Hin. destruct Hin as [[key method] [Hentry Hin]].
  rewrite Forall_forall in Hnamed.
  destruct (truthy_name _ (Hnamed _ Hentry)) as [name [Hname Hne]].
  simpl in *. unfold declareTestMethod in Hin. rewrite Hname in Hin.
  destruct (parametersSymbol method) as [parameters|] eqn:Hp.
  - destruct Hin as [<- | []]. simpl. repeat split; assumption.
  - rewrite applyTestFunc_eq in Hin. destruct Hin as [<- | []].
    simpl. repeat split; assumption.
Qed.

Lemma prologue_by_name chain : Forall declared_by_name (prologue chain).
Proof.
  unfold prologue, static_before_calls, instance_before_calls.
  destruct (get_static static_before chain);
    destruct (get_method chain "before"); repeat constructor.
Qed.

Lemma epilogue_by_name chain : Forall declared_by_name (epilogue chain).
Proof.
  unfold epilogue, static_after_calls, instance_after_calls.
  destruct (get_static static_before chain);
    destruct (get_static static_after chain);
    destruct (get_method chain "after"); repeat constructor.
Qed.

(** X3.  A registration never declares a method without a display name:
    every [runner.test] call it issues is for an unparameterised method
    with a non-empty name, called without parameter values, and every
    [runner.suite] call is for a method carrying parameter sets and a
    non-empty name; both are named by that name and carry the settings read
    from the method. *)
Theorem only_named_methods_declared (target : TestClass) (ancestors : list TestClass) :
  Forall declared_by_name (calls (suiteCallbackFromClass target ancestors)).
Proof.
  destruct (callback_calls_cases target ancestors) as [-> | [c [Hc ->]]].
  - apply prologue_by_name.
  - apply Forall_app. split; [apply prologue_by_name|].
    apply Forall_app. split; [|apply epilogue_by_name].
    apply declarations_by_name.
    pose proof (registered_named target ancestors) as H.
    unfold registered in H. rewrite Hc in H. exact H.
Qed.

(** X4.  The collected methods have pairwise distinct keys; each is the
    function that [prototype[key]] resolves to on the registered class,
    carries a non-empty display name, and its key is not the name of a
    member of [Object.prototype]. *)
Theorem registered_entries_resolved (target : TestClass) (ancestors : list TestClass) :
  NoDup (map fst (registered target ancestors))
  /\ forall key method, In (key, method) (registered target ancestors) ->
       get_property (target :: ancestors) key = Some (PFun method)
       /\ JS.truthy (nameSymbol method) = true
       /\ JS.on_object_prototype key = false.
Proof.
  unfold registered.
  destruct (collectTests (target :: ancestors)) as [e|c] eqn:Hc.
  - split; [constructor | intros key method []].
  - destruct (collect_loop_fold _ _ _ _ Hc) as [keys ->].
    set (chain := target :: ancestors).
    pose proof (collect_keys_sound chain keys [] (sound_nil chain)) as [Hnd Hres].
    pose proof (collect_keys_named chain keys [] (Forall_nil _)) as Hnamed.
    pose proof (collect_keys_off_prototype chain keys [] (Forall_nil _)) as Hoff.
    rewrite Forall_forall in Hnamed, Hoff.
    split; [apply own_entries_NoDup, Hnd|].
    intros key method Hin. apply (proj1 (own_entries_In _ _)) in Hin.
    repeat split.
    + apply Hres, Hin.
    + apply (Hnamed _ Hin).
    + apply (Hoff _ Hin).
Qed.




(** ** How a registration ends *)

Lemma callback_outcome_returns target ancestors collectedTests :
  collectTests (target :: ancestors) = inr collectedTests ->
  outcome (suiteCallbackFromClass target ancestors)
  = match get_static static_after (target :: ancestors),
          get_static static_before (target :: ancestors) with
    | Some _, None => inl TypeError
    | _, _ => inr tt
    end.
Proof.
  intros Hc. unfold suiteCallbackFromClass. rewrite Hc.
  destruct (get_static static_before (target :: ancestors));
    destruct (get_method (target :: ancestors) "before");
    destruct (get_method (target :: ancestors) "after");
    destruct (get_static static_after (target :: ancestors));
    unfold bind, call, ret, lift, throw, outcome; simpl;
    rewrite forEach_declare; reflexivity.
Qed.

(** X6.  The callback ends in one of three ways.  It throws the
    configuration error, naming the class and its nearest superclass, when
    a superclass carries the suite mark; otherwise it throws a [TypeError]
    when the class has a static [after] but no static [before]; otherwise
    it returns. *)
Theorem callback_outcome (target : TestClass) (ancestors : list TestClass) :
  outcome (suiteCallbackFromClass target ancestors)
  = if has_suiteSymbol ancestors
    then inl (ConfigurationError
                (suite_inheritance_message target (hd target ancestors)))
    else match get_static static_after (target :: ancestors),
               get_static static_before (target :: ancestors) with
         | Some _, None => inl TypeError
         | _, _ => inr tt
         end.
Proof.
  destruct (has_suiteSymbol ancestors) eqn:Hs.
  - destruct ancestors as [|next up]; [discriminate Hs|].
    assert (Hc : collectTests (target :: next :: up)
                 = inl (ConfigurationError (suite_inheritance_message target next))).
    { unfold collectTests. rewrite collect_loop_suite by exact Hs. reflexivity. }
    rewrite (callback_throws _ _ _ Hc). reflexivity.
  - apply (callback_outcome_returns _ _ _ (registered_no_suite target ancestors Hs)).
Qed.

Lemma registration_calls (target : TestClass) (ancestors : list TestClass) :
  let chain := target :: ancestors in
  calls (suiteCallbackFromClass target ancestors)
  = static_before_calls chain
    ++ [runner_beforeEach "setup instance" setup_instance None]
    ++ instance_before_calls chain
    ++ (if has_suiteSymbol ancestors then []
        else declarations (registered target ancestors)
             ++ instance_after_calls chain
             ++ [runner_afterEach "teardown instance" teardown_instance None]
             ++ static_after_calls chain).
Proof.
  intros chain. destruct (has_suiteSymbol ancestors) eqn:Hs.
  - destruct ancestors as [|next up]; [discriminate Hs|].
    assert (Hc : collectTests (target :: next :: up)
                 = inl (ConfigurationError (suite_inheritance_message target next))).
    { unfold collectTests. rewrite collect_loop_suite by exact Hs. reflexivity. }
    rewrite (callback_throws _ _ _ Hc). unfold calls, prologue. simpl fst.
    rewrite app_nil_r. reflexivity.
  - pose proof (registered_no_suite target ancestors Hs) as Hc.
    rewrite (callback_returns _ _ _ Hc).
    unfold registered. rewrite Hc. unfold prologue, epilogue.
    rewrite <- !app_assoc. reflexivity.
Qed.

(** X7.  The order of a registration: the static [before] hook, the
    internal instance setup, the instance [before] hook; then, unless a
    superclass carries the suite mark, the declarations of the collected
    methods, the instance [after] hook, the internal instance teardown and
    the static [after] hook.  When the walk throws, the first three stay
    registered and nothing else is. *)
Theorem registration_order (target : TestClass) (ancestors : list TestClass) :
  let chain := target :: ancestors in
  calls (suiteCallbackFromClass target ancestors)
  = static_before_calls chain
    ++ [runner_beforeEach "setup instance" setup_instance None]
    ++ instance_before_calls chain
    ++ (if has_suiteSymbol ancestors then []
        else declarations (registered target ancestors)
             ++ instance_after_calls chain
             ++ [runner_afterEach "teardown instance" teardown_instance None]
             ++ static_after_calls chain).
Proof. exact (registration_calls target ancestors). Qed.

(** ** Settings of a parameterised method *)

Lemma mapi_from_map {A B C : Type} (g : B -> C) (f : nat -> A -> B) (h : A -> C) l :
  (forall i x, g (f i x) = h x) ->
  forall i, map g (mapi_from i f l) = map h l.
Proof.
  intros H. induction l as [|x rest IH]; intros i; simpl; [reflexivity|].
  rewrite H, IH. reflexivity.
Qed.

(** X8.  The settings attached to a parameterised method (slow, timeout,
    retries, execution mode) go to its child suite; each test inside
    receives an object holding only the execution mode of its own
    parameter set, also when that mode is not set. *)
Theorem parameterised_settings_split
  (method : FunctionObject) (parameters : list TestParams) :
  parametersSymbol method = Some parameters ->
  map settings_of (calls (declareTestMethod method)) = [getSettings method]
  /\ forall testName,
       map settings_of
         (calls (invoke (parameterised_tests testName method parameters)))
       = map (fun p => Some (mkSettings None None None (tp_execution p)))
           parameters.
Proof.
  intros Hp. split.
  - unfold declareTestMethod. rewrite Hp. reflexivity.
  - intros testName. rewrite invoke_eq. unfold calls. simpl fst.
    apply mapi_from_map. reflexivity.
Qed.

Lemma parameterised_settings_split_witness :
  map settings_of (calls (declareTestMethod Fixtures.runTest))
  = [getSettings Fixtures.runTest]
  /\ forall testName,
       map settings_of
         (calls (invoke (parameterised_tests testName Fixtures.runTest
                           Fixtures.runTest_parameters)))
       = map (fun p => Some (mkSettings None None None (tp_execution p)))
           Fixtures.runTest_parameters.
Proof.
  apply (parameterised_settings_split Fixtures.runTest Fixtures.runTest_parameters).
  reflexivity.
Defined.

(** ** Dependency injection systems *)

Lemma registerDI_incl systems d x :
  In x systems -> In x (registerDI systems d).
Proof.
  intros H. unfold registerDI.
  destruct (negb (existsb _ systems)); [right; exact H | exact H].
Qed.

Lemma registerDI_In systems d x :
  In x (registerDI systems d) -> x = d \/ In x systems.
Proof.
  unfold registerDI.
  destruct (negb (existsb _ systems)); simpl; intros H.
  - destruct H as [<- | H]; [left; reflexivity | right; exact H].
  - right. exact H.
Qed.

Lemma registry_default registrations : forall systems,
  In default_system systems ->
  In default_system (fold_left registerDI registrations systems).
Proof.
  induction registrations as [|d rest IH]; intros systems H; simpl; [exact H|].
  apply IH, registerDI_incl, H.
Qed.

Lemma registry_In registrations x : forall systems,
  In x (fold_left registerDI registrations systems) ->
  In x registrations \/ In x systems.
Proof.
  induction registrations as [|d rest IH]; intros systems H; simpl in *.
  - right. exact H.
  - destruct (IH _ H) as [Hrest | Hd]; [left; right; exact Hrest|].
    destruct (registerDI_In _ _ _ Hd) as [-> | Hs];
      [left; left; reflexivity | right; exact Hs].
Qed.

Lemma find_only {B : Type} (P : B -> bool) (d : B) (l : list B) :
  (forall x, In x l -> P x = true -> x = d) ->
  In d l -> P d = true -> find P l = Some d.
Proof.
  induction l as [|x rest IH]; intros Honly Hin Hd; simpl; [contradiction|].
  destruct (P x) eqn:Hx.
  - rewrite (Honly x (or_introl eq_refl) Hx). reflexivity.
  - destruct Hin as [-> | Hin]; [congruence|].
    apply IH; try assumption. intros y Hy. apply Honly. right. exact Hy.
Qed.

(** X9.  Whatever systems were registered, [createInstance] finds one for
    every class: the default system is never removed and handles every
    class.  When none of the registered systems handles the class, the
    instance is the one the default system constructs. *)
Theorem createInstance_never_fails
  (registrations : list DependencyInjectionSystem) (testClass : TestClass) :
  (exists i, createInstance (registry registrations) testClass = inr i)
  /\ ((forall d, In d registrations -> handles d testClass = false) ->
      createInstance (registry registrations) testClass
      = inr (constructed 0 (class_name testClass))).
Proof.
  assert (Hdefault : In default_system (registry registrations)).
  { apply registry_default. left. reflexivity. }
  split.
  - unfold createInstance.
    destruct (find (fun di => handles di testClass) (registry registrations))
      as [di|] eqn:Hfind.
    + exists (create di testClass). reflexivity.
    + pose proof (find_none _ _ Hfind _ Hdefault) as H. discriminate H.
  - intros Hnone. unfold createInstance.
    rewrite (find_only _ default_system); [reflexivity | | exact Hdefault | reflexivity].
    intros x Hin Hx. apply registry_In in Hin.
    destruct Hin as [Hin | [<- | []]]; [|reflexivity].
    rewrite (Hnone x Hin) in Hx. discriminate Hx.
Qed.

(** X10.  A system registered for the first time is asked before all
    earlier ones: if it handles the class it creates the instance.
    Registering a system that is already registered changes nothing, so it
    keeps the priority of its first registration. *)
Theorem registerDI_priority
  (systems : list DependencyInjectionSystem) (d : DependencyInjectionSystem)
  (testClass : TestClass) :
  (existsb (fun di => di_identity di =? di_identity d)%nat systems = false ->
   handles d testClass = true ->
   createInstance (registerDI systems d) testClass = inr (create d testClass))
  /\ (existsb (fun di => di_identity di =? di_identity d)%nat systems = true ->
      registerDI systems d = systems)
  /\ registerDI (registerDI systems d) d = registerDI systems d.
Proof.
  split; [|split].
  - intros Hnew Hd. unfold registerDI, createInstance. rewrite Hnew. simpl.
    rewrite Hd. reflexivity.
  - intros Hold. unfold registerDI. rewrite Hold. reflexivity.
  - destruct (existsb (fun di => di_identity di =? di_identity d)%nat systems)
      eqn:Hold.
    + assert (H : registerDI systems d = systems)
        by (unfold registerDI; rewrite Hold; reflexivity).
      rewrite !H. reflexivity.
    + assert (H : registerDI systems d = d :: systems)
        by (unfold registerDI; rewrite Hold; reflexivity).
      rewrite H. unfold registerDI. simpl. rewrite Nat.eqb_refl. reflexivity.
Qed.

(** ** The instance around a test *)

Lemma run_callbacks_app systems target (a b : list Callback) : forall v,
  run_callbacks systems target (a ++ b) v
  = (fst (run_callbacks systems target b (fst (run_callbacks systems target a v))),
     snd (run_callbacks systems target a v)
     ++ snd (run_callbacks systems target b (fst (run_callbacks systems target a v)))).
Proof.
  induction a as [|c rest IH]; intros v; simpl.
  - destruct (run_callbacks systems target b v). reflexivity.
  - destruct (run_callback systems target c v) as [v' e].
    rewrite IH.
    destruct (run_callbacks systems target rest v') as [v'' e'].
    simpl. rewrite app_assoc. reflexivity.
Qed.

Lemma run_untouched systems target (schedule : list Callback) : forall v,
  forallb (fun c => negb (touches_instance c)) schedule = true ->
  fst (run_callbacks systems target schedule v) = v
  /\ Forall (sees v) (snd (run_callbacks systems target schedule v)).
Proof.
  induction schedule as [|c rest IH]; intros v H; simpl.
  - split; [reflexivity | constructor].
  - simpl in H. apply andb_true_iff in H. destruct H as [Hc Hrest].
    destruct (IH v Hrest) as [Hfst Hsees].
    destruct c; try discriminate Hc; simpl;
      destruct (run_callbacks systems target rest v) as [v' e]; simpl in *;
      (split; [exact Hfst | constructor; [simpl; auto | exact Hsees]]).
Qed.

(** X11.  In whatever order a runner runs the closures of a suite: the hook
    and test closures run after a successful "setup instance" and before
    the next "teardown instance" are all called on the instance that setup
    created, and those run after the teardown and before the next setup are
    called on [null], never on an earlier instance. *)
Theorem instance_between_setup_and_teardown
  (systems : list DependencyInjectionSystem) (target : TestClass)
  (i : Instance) (body later : list Callback) (v : InstanceVariable) :
  createInstance systems target = inr i ->
  forallb (fun c => negb (touches_instance c)) body = true ->
  forallb (fun c => negb (touches_instance c)) later = true ->
  let run := run_callbacks systems target
               (setup_instance :: body ++ teardown_instance :: later) v in
  fst run = cleared
  /\ snd run = snd (run_callbacks systems target body (holds i))
               ++ snd (run_callbacks systems target later cleared)
  /\ Forall (sees (holds i)) (snd (run_callbacks systems target body (holds i)))
  /\ Forall (sees cleared) (snd (run_callbacks systems target later cleared)).
Proof.
  intros Hcreate Hbody Hlater run.
  destruct (run_untouched systems target body (holds i) Hbody) as [Hb1 Hb2].
  destruct (run_untouched systems target later cleared Hlater) as [Hl1 Hl2].
  assert (Hrun : run = (cleared,
            snd (run_callbacks systems target body (holds i))
            ++ snd (run_callbacks systems target later cleared))).
  { unfold run. simpl. rewrite Hcreate.
    rewrite run_callbacks_app, Hb1. simpl.
    destruct (run_callbacks systems target later cleared) as [v' e] eqn:Hl.
    simpl in *. subst v'. reflexivity. }
  rewrite Hrun. repeat split; assumption.
Qed.

Lemma beforeEach_declarations entries :
  beforeEach_callbacks (declarations entries) = []
  /\ afterEach_callbacks (declarations entries) = [].
Proof.
  pose proof (declarations_kind entries) as H.
  unfold beforeEach_callbacks, afterEach_callbacks.
  split; apply flat_map_nil; (eapply Forall_impl; [| exact H]);
    intros [] Hc; try discriminate Hc; reflexivity.
Qed.

Lemma schedule_of_registration target ancestors test :
  has_suiteSymbol ancestors = false ->
  test_schedule (calls (suiteCallbackFromClass target ancestors)) test
  = setup_instance :: before_hook_callbacks (target :: ancestors)
    ++ test :: after_hook_callbacks (target :: ancestors)
    ++ [teardown_instance].
Proof.
  intros Hs. unfold test_schedule.
  pose proof (registration_calls target ancestors) as Horder.
  cbv zeta in Horder. rewrite Hs in Horder. rewrite Horder.
  destruct (beforeEach_declarations (registered target ancestors)) as [Hb Ha].
  unfold beforeEach_callbacks, afterEach_callbacks in *.
  rewrite !flat_map_app, Hb, Ha.
  unfold static_before_calls, static_after_calls, instance_before_calls,
    instance_after_calls, before_hook_callbacks, after_hook_callbacks.
  destruct (get_static static_before (target :: ancestors));
    destruct (get_static static_after (target :: ancestors));
    destruct (get_method (target :: ancestors) "before");
    destruct (get_method (target :: ancestors) "after"); reflexivity.
Qed.

(** X12.  Take a runner that, around each test, runs every [beforeEach]
    closure of the suite in registration order, then the test, then every
    [afterEach] closure in registration order.  For a class without
    suite-marked superclass that is: instance setup, the instance [before]
    hook, the test, the instance [after] hook, instance teardown.  Run from
    any state of the variable, the hook, the test and the other hook are
    called on the one instance created for this test, and the variable is
    [null] afterwards. *)
Theorem one_instance_per_test
  (systems : list DependencyInjectionSystem) (target : TestClass)
  (ancestors : list TestClass) (i : Instance)
  (method : FunctionObject) (done : bool) (callArgs : list JS.value)
  (v : InstanceVariable) :
  has_suiteSymbol ancestors = false ->
  createInstance systems target = inr i ->
  let chain := target :: ancestors in
  let schedule :=
    test_schedule (calls (suiteCallbackFromClass target ancestors))
      (test_call method done callArgs) in
  schedule = setup_instance :: before_hook_callbacks chain
             ++ test_call method done callArgs :: after_hook_callbacks chain
             ++ [teardown_instance]
  /\ run_callbacks systems target schedule v
     = (cleared,
        hook_effects (before_hook_callbacks chain) i
        ++ invokes method (on_instance (holds i)) done callArgs
           :: hook_effects (after_hook_callbacks chain) i).
Proof.
  intros Hs Hcreate chain schedule.
  assert (Hsched : schedule
    = setup_instance :: before_hook_callbacks chain
      ++ test_call method done callArgs :: after_hook_callbacks chain
      ++ [teardown_instance])
    by apply (schedule_of_registration target ancestors _ Hs).
  split; [exact Hsched|].
  rewrite Hsched. unfold before_hook_callbacks, after_hook_callbacks.
  destruct (get_method chain "before"); destruct (get_method chain "after");
    simpl; rewrite Hcreate; reflexivity.
Qed.

(** ** The suite decorator *)

Lemma get_property_same a b ancestors key :
  prototype a = prototype b ->
  get_property (a :: ancestors) key = get_property (b :: ancestors) key.
Proof. intros H. simpl. rewrite H. reflexivity. Qed.

Lemma collect_key_same a b ancestors acc key :
  prototype a = prototype b ->
  collect_key (a :: ancestors) acc key = collect_key (b :: ancestors) acc key.
Proof.
  intros H. unfold collect_key. rewrite (get_property_same a b ancestors key H).
  reflexivity.
Qed.

Lemma collect_keys_same a b ancestors keys : forall acc,
  prototype a = prototype b ->
  fold_left (collect_key (a :: ancestors)) keys acc
  = fold_left (collect_key (b :: ancestors)) keys acc.
Proof.
  induction keys as [|key rest IH]; intros acc H; simpl; [reflexivity|].
  rewrite (collect_key_same a b ancestors acc key H). apply IH, H.
Qed.

Lemma collect_loop_same a b ancestors current : forall acc,
  class_name a = class_name b ->
  prototype a = prototype b ->
  collect_loop (a :: ancestors) current acc
  = collect_loop (b :: ancestors) current acc.
Proof.
  induction current as [|c up IH]; intros acc Hname Hproto; [reflexivity|].
  simpl. rewrite (collect_keys_same a b ancestors _ acc Hproto).
  destruct up as [|next up']; [reflexivity|].
  unfold suite_inheritance_message. rewrite Hname.
  destruct (has_suiteSymbol (next :: up')); [reflexivity|].
  apply IH; assumption.
Qed.

Lemma collectTests_same a b ancestors :
  same_members a b ->
  collectTests (a :: ancestors) = collectTests (b :: ancestors).
Proof.
  intros [Hname [_ [_ Hproto]]]. unfold collectTests.
  rewrite (collect_loop_same a b ancestors (a :: ancestors) [] Hname Hproto).
  simpl. rewrite Hproto.
  destruct ancestors as [|next up]; [reflexivity|].
  destruct (has_suiteSymbol (next :: up)); reflexivity.
Qed.

(** Class-level metadata is not read by the registration callback. *)
Lemma callback_same_members a b ancestors :
  same_members a b ->
  suiteCallbackFromClass a ancestors = suiteCallbackFromClass b ancestors.
Proof.
  intros H. pose proof (collectTests_same a b ancestors H) as Hc.
  destruct H as [Hname [Hsb [Hsa Hproto]]].
  unfold suiteCallbackFromClass, get_method.
  rewrite Hc. simpl get_static. rewrite Hsb, Hsa.
  rewrite (get_property_same a b ancestors "before" Hproto).
  rewrite (get_property_same a b ancestors "after" Hproto).
  reflexivity.
Qed.

Lemma mark_suite_same execution target : same_members target (mark_suite execution target).
Proof. repeat split. Qed.

Lemma library_trait_same f target :
  library_trait f ->
  same_members target (as_decorator f target)
  /\ suiteSymbol (as_decorator f target) = suiteSymbol target.
Proof.
  intros [[key [value ->]] | [[execution ->] | ->]]; repeat split.
Qed.

Lemma traits_same decorators : forall target,
  Forall library_trait decorators ->
  same_members target (fold_left (fun c d => as_decorator d c) decorators target)
  /\ suiteSymbol (fold_left (fun c d => as_decorator d c) decorators target)
     = suiteSymbol target.
Proof.
  induction decorators as [|d rest IH]; intros target H; simpl.
  - repeat split.
  - inversion H as [|? ? Hd Hrest]; subst.
    destruct (library_trait_same d target Hd) as [[H1 [H2 [H3 H4]]] Hs].
    destruct (IH (as_decorator d target) Hrest) as [[G1 [G2 [G3 G4]]] Gs].
    repeat split; congruence.
Qed.

(** X13.  The decorator returned by [suite(name?, ...traits)], applied to a
    class, issues exactly one [runner.suite] call: under the given name,
    or the name of the class when none was given, with the settings read
    from the constructor after the traits ran.  The class then carries the
    suite mark.  The variant's execution mode and the traits only write
    class-level metadata: the callback handed to the runner registers
    exactly what the callback of the undecorated class would. *)
Theorem suite_closure_registers_once
  (execution : option Execution) (name : option string)
  (decorators : list SuiteFunction) (target : TestClass)
  (ancestors : list TestClass) :
  Forall library_trait decorators ->
  let ctor := fst (suite_closure execution name decorators target ancestors) in
  snd (apply_suite_result execution (returns_closure name decorators)
         target ancestors)
  = [runner_class_suite
       (match name with Some n => n | None => class_name target end)
       ctor ancestors (getSettings (inherited_ctor ctor ancestors))]
  /\ suiteSymbol ctor = true
  /\ suite_class_callback
       (snd (suite_closure execution name decorators target ancestors))
     = suiteCallbackFromClass target ancestors.
Proof.
  intros Htraits ctor.
  assert (Hctor : ctor = fold_left (fun c d => as_decorator d c) decorators
                           (mark_suite execution target)) by reflexivity.
  assert (Hclosure : suite_closure execution name decorators target ancestors
    = (ctor,
       runner_class_suite
         (match name with Some n => n | None => class_name ctor end)
         ctor ancestors (getSettings (inherited_ctor ctor ancestors))))
    by reflexivity.
  destruct (traits_same decorators (mark_suite execution target) Htraits)
    as [[G1 [G2 [G3 G4]]] Hmark].
  rewrite <- Hctor in G1, G2, G3, G4, Hmark. simpl in G1, G2, G3, G4, Hmark.
  assert (Hmembers : same_members target ctor) by (repeat split; assumption).
  unfold apply_suite_result. rewrite Hclosure. simpl fst. simpl snd.
  split; [|split].
  - rewrite <- G1. reflexivity.
  - exact Hmark.
  - simpl. symmetry. apply callback_same_members, Hmembers.
Qed.

Lemma getSettings_execution f e :
  executionSymbol f = Some e ->
  exists s, getSettings f = Some s /\ execution s = Some e.
Proof.
  intros H. rewrite getSettings_eq. unfold unset. rewrite H.
  destruct (slowSymbol f), (timeoutSymbol f), (retriesSymbol f);
    eexists; split; reflexivity.
Qed.

Lemma runs_traits_app (ds : list SuiteFunction) g target :
  fold_left (fun c d => as_decorator d c) (ds ++ [g]) target
  = as_decorator g (fold_left (fun c d => as_decorator d c) ds target).
Proof. rewrite fold_left_app. reflexivity. Qed.

(** X14.  The execution mode of a variant and the execution modes written
    by the decorators passed to it are ordered differently for tests and
    for suites.  [@test.skip(...)], [@test.only(...)], [@test.pending(...)]
    write their mode after the decorators they were given, so the
    variant wins; [@suite.skip(...)] and the like write theirs before the
    traits, so an execution modifier passed last as a trait wins, and it is
    the mode [runner.suite] receives. *)
Theorem execution_precedence (variant trait : Execution) :
  (forall decorators propertyKey f,
     executionSymbol (denote (test_with (Some variant) decorators) propertyKey f)
     = Some variant)
  /\ (forall name decorators propertyKey f,
        executionSymbol
          (denote (test_named (Some variant) name decorators) propertyKey f)
        = Some variant)
  /\ (forall name decorators cls superclasses target ancestors,
        let closure :=
          suite_closure (Some variant) name
            (decorators ++ [unmarked cls superclasses (modifier_trait trait)])
            target ancestors in
        executionSymbol (ctor (fst closure)) = Some trait
        /\ exists s,
             settings_of_suite (snd closure) = Some s
             /\ execution s = Some trait).
Proof.
  split; [|split].
  - intros. reflexivity.
  - intros. reflexivity.
  - intros name decorators cls superclasses target ancestors closure.
    assert (Hexec : executionSymbol (ctor (fst closure)) = Some trait).
    { unfold closure, suite_closure. simpl fst. rewrite runs_traits_app.
      reflexivity. }
    split; [exact Hexec|].
    unfold closure, suite_closure, settings_of_suite. simpl snd.
    apply getSettings_execution.
    unfold closure, suite_closure in Hexec. simpl fst in Hexec.
    simpl. rewrite Hexec. reflexivity.
Qed.

Lemma getSettings_fields f s :
  getSettings f = Some s ->
  (forall key, setting key s = option_symbol key f)
  /\ execution s = executionSymbol f.
Proof.
  rewrite getSettings_eq. destruct (unset f); [discriminate|].
  intros H. inversion H; subst. split; [intros []; reflexivity | reflexivity].
Qed.

Lemma getSettings_None f :
  getSettings f = None ->
  (forall key, option_symbol key f = None) /\ executionSymbol f = None.
Proof.
  rewrite getSettings_eq. unfold unset.
  destruct (slowSymbol f) eqn:H1, (timeoutSymbol f) eqn:H2,
    (retriesSymbol f) eqn:H3, (executionSymbol f) eqn:H4;
    try discriminate.
  intros _. split; [intros []; assumption | reflexivity].
Qed.

Lemma closure_settings_fields
  (variant : option Execution) (name : option string)
  (decorators : list SuiteFunction) (target : TestClass)
  (ancestors : list TestClass) :
  let closure := suite_closure variant name decorators target ancestors in
  let chain := fst closure :: ancestors in
  match settings_of_suite (snd closure) with
  | Some s =>
      (forall key,
         setting key s = first_along (fun f => option_symbol key f) chain)
      /\ execution s = first_along executionSymbol chain
  | None =>
      (forall key, first_along (fun f => option_symbol key f) chain = None)
      /\ first_along executionSymbol chain = None
  end.
Proof.
  intros closure chain.
  assert (Hs : settings_of_suite (snd closure)
               = getSettings (inherited_ctor (fst closure) ancestors))
    by reflexivity.
  rewrite Hs.
  destruct (getSettings (inherited_ctor (fst closure) ancestors)) as [s|] eqn:Hg.
  - destruct (getSettings_fields _ _ Hg) as [Hf He].
    split; [|exact He]. intros key. rewrite Hf. destruct key; reflexivity.
  - destruct (getSettings_None _ Hg) as [Hf He].
    split; [|exact He]. intros key. rewrite <- (Hf key). destruct key; reflexivity.
Qed.

(** X15.  The settings [runner.suite] receives for a class are read through
    the chain of constructors: each of slow, timeout, retries and execution
    mode is the value carried by the nearest class of the chain that
    carries one, the registered class first with what the variant and the
    traits wrote on it; no settings object is passed when no class of the
    chain carries any. *)
Theorem class_settings_inherited
  (variant : option Execution) (name : option string)
  (decorators : list SuiteFunction) (target : TestClass)
  (ancestors : list TestClass) :
  let closure := suite_closure variant name decorators target ancestors in
  let chain := fst closure :: ancestors in
  match settings_of_suite (snd closure) with
  | Some s =>
      (forall key,
         setting key s = first_along (fun f => option_symbol key f) chain)
      /\ execution s = first_along executionSymbol chain
  | None =>
      (forall key, first_along (fun f => option_symbol key f) chain = None)
      /\ first_along executionSymbol chain = None
  end.
Proof.
  exact (closure_settings_fields variant name decorators target ancestors).
Qed.

(** X16.  An option trait passed last to [suite(...)] decides the value
    [runner.suite] receives for its key, whatever the class, its
    superclasses or the earlier traits carried. *)
Theorem suite_option_trait_round_trip
  (execution : option Execution) (name : option string)
  (decorators : list SuiteFunction) (key : OptionKey) (value : Z)
  (target : TestClass) (ancestors : list TestClass) :
  exists s,
    settings_of_suite
      (snd (suite_closure execution name
              (decorators ++ [marked (option_trait key value)])
              target ancestors)) = Some s
    /\ setting key s = Some value.
Proof.
  set (closure := suite_closure execution name
                    (decorators ++ [marked (option_trait key value)])
                    target ancestors).
  assert (Hown : option_symbol key (ctor (fst closure)) = Some value).
  { unfold closure, suite_closure. simpl fst. rewrite runs_traits_app.
    destruct key; reflexivity. }
  pose proof (closure_settings_fields execution name
                (decorators ++ [marked (option_trait key value)])
                target ancestors) as H.
  cbv zeta in H. fold closure in H.
  destruct (settings_of_suite (snd closure)) as [s|].
  - exists s. split; [reflexivity|]. destruct H as [Hf _].
    rewrite Hf. cbn [first_along]. rewrite Hown. reflexivity.
  - destruct H as [Hf _]. specialize (Hf key). cbn [first_along] in Hf.
    rewrite Hown in Hf. discriminate Hf.
Qed.

(** X17.  [@suite] written bare and [@suite()] register a class in the same
    way: one [runner.suite] call under the name of the class, with the
    class suite-marked and tagged with the variant's execution mode, whose
    callback registers what the callback of the class registers. *)
Theorem bare_suite_forms_agree
  (execution : option Execution) (target : TestClass)
  (ancestors : list TestClass) (d : ClassDecorator) :
  let ctor := mark_suite execution target in
  let call :=
    runner_class_suite (class_name target) ctor ancestors
      (getSettings (inherited_ctor ctor ancestors)) in
  fst (fst (makeSuiteFunction execution None [unmarked target ancestors d]))
  = [call]
  /\ apply_suite_result execution
       (snd (makeSuiteFunction execution None [])) target ancestors
     = (ctor, [call])
  /\ suite_class_callback call = suiteCallbackFromClass target ancestors.
Proof.
  intros ctor call. split; [reflexivity|]. split; [reflexivity|].
  simpl. symmetry. apply callback_same_members, mark_suite_same.
Qed.

(** ** The call shapes of [@test] *)

Lemma call_stored_functions (ds : list MethodDecorator) propertyKey : forall f,
  call_stored (map function_argument ds) propertyKey f
  = (apply_all ds propertyKey f, None).
Proof.
  unfold apply_all.
  induction ds as [|d rest IH]; intros f; simpl; [reflexivity|]. apply IH.
Qed.

(** X18.  The three call shapes of [@test] lead to the three handlers.
    Called by the compiler on a prototype member, it runs [testProperty].
    Called with a name and decorators, or with decorators only, it returns
    a decorator whose application has the effect of [testDecoratorNamed],
    respectively [testDecorator], on the stored decorators.  Called without
    argument, the decorator it returns leaves the member exactly as the
    bare [@test] does. *)
Theorem test_call_shapes
  (execution : option Execution) (propertyKey : string) (f : FunctionObject) :
  (forall rest,
     let arguments := object_argument :: string_argument propertyKey :: rest in
     testOverload arguments = applies_testProperty arguments
     /\ apply_testProperty execution arguments f
        = Some (testProperty execution propertyKey f))
  /\ (forall name decorators,
        testOverload (string_argument name :: map function_argument decorators)
        = returns_decorator (Some name) (map function_argument decorators)
        /\ apply_returned execution (Some name)
             (map function_argument decorators) propertyKey f
           = (testDecoratorNamed execution name decorators propertyKey f, None))
  /\ (forall decorators,
        testOverload (map function_argument decorators)
        = returns_decorator None (map function_argument decorators)
        /\ apply_returned execution None
             (map function_argument decorators) propertyKey f
           = (testDecorator execution decorators propertyKey f, None))
  /\ (testOverload [] = returns_decorator None []
      /\ apply_returned execution None [] propertyKey f
         = (testProperty execution propertyKey f, None))
  /\ (forall constructor rest,
        let arguments :=
          function_argument constructor :: string_argument propertyKey :: rest in
        testOverload arguments = returns_decorator None arguments).
Proof.
  split; [|split; [|split; [|split]]].
  - intros rest arguments. split; reflexivity.
  - intros name decorators. split.
    + destruct decorators; reflexivity.
    + unfold apply_returned. rewrite call_stored_functions. reflexivity.
  - intros decorators. split.
    + destruct decorators as [|d [|d' rest]]; reflexivity.
    + unfold apply_returned. rewrite call_stored_functions. reflexivity.
  - split; reflexivity.
  - intros constructor rest arguments. reflexivity.
Qed.


(** ** Naming a parameterised test *)

(** X19.  [@test("name")] written above the [@params] annotations of a
    method is applied after them: it replaces the display name they wrote
    and keeps their parameter sets, so the method is declared as a child
    suite of that name. *)
Theorem named_parameterised_test
  (variant : option Execution) (name propertyKey : string)
  (f : FunctionObject) (q : TestParams) (qs : list TestParams) :
  parametersSymbol f = None ->
  let method :=
    decorate (test_named variant name [] :: map params_decorator (q :: qs))
      propertyKey f in
  nameSymbol method = Some name
  /\ parametersSymbol method = Some (rev (q :: qs))
  /\ calls (declareTestMethod method)
     = [runner_suite name
          (parameterised_tests name method (rev (q :: qs)))
          (getSettings method)].
Proof.
  intros Hfresh method.
  set (inner := decorate (map params_decorator (q :: qs)) propertyKey f).
  assert (Hinner : parametersSymbol inner = Some (rev (q :: qs))).
  { unfold inner.
    change (decorate (map params_decorator (q :: qs)) propertyKey f)
      with (denote (params_decorator q) propertyKey
              (decorate (map params_decorator qs) propertyKey f)).
    rewrite denote_params_parameters, decorate_params_parameters, Hfresh.
    reflexivity. }
  assert (Hmethod : method = tag_execution variant (set_name name inner))
    by reflexivity.
  assert (Hname : nameSymbol method = Some name)
    by (rewrite Hmethod; destruct variant; reflexivity).
  assert (Hps : parametersSymbol method = Some (rev (q :: qs)))
    by (rewrite Hmethod, <- Hinner; destruct variant; reflexivity).
  split; [exact Hname|]. split; [exact Hps|].
  unfold declareTestMethod. rewrite Hname, Hps. reflexivity.
Qed.

Lemma named_parameterised_test_witness :
  let method :=
    decorate (test_named None "custom" []
                :: map params_decorator [Fixtures.first_set; Fixtures.second_set])
      "run" (function 1 1) in
  nameSymbol method = Some "custom"
  /\ parametersSymbol method = Some [Fixtures.second_set; Fixtures.first_set]
  /\ calls (declareTestMethod method)
     = [runner_suite "custom"
          (parameterised_tests "custom" method
             [Fixtures.second_set; Fixtures.first_set])
          (getSettings method)].
Proof.
  apply (named_parameterised_test None "custom" "run" (function 1 1)
           Fixtures.first_set [Fixtures.second_set]).
  reflexivity.
Defined.

(** ** Concrete instances *)

Lemma createInstance_never_fails_witness :
  createInstance (registry [Examples.container; Examples.container]) Fixtures.Hooks
  = inr (constructed 1 "Hooks")
  /\ createInstance (registry [Examples.container]) Fixtures.A
     = inr (constructed 0 "A").
Proof.
  split; [reflexivity|].
  apply (proj2 (createInstance_never_fails [Examples.container] Fixtures.A)).
  intros d [<- | []]. reflexivity.
Defined.

Lemma registerDI_priority_witness :
  createInstance (registerDI [default_system] Examples.container) Fixtures.Hooks
  = inr (constructed 1 "Hooks")
  /\ registerDI (registerDI [default_system] Examples.container) Examples.container
     = registerDI [default_system] Examples.container.
Proof.
  destruct (registerDI_priority [default_system] Examples.container Fixtures.Hooks)
    as [Hnew [_ Hsame]].
  split; [apply Hnew; reflexivity | exact Hsame].
Defined.

Lemma instance_between_setup_and_teardown_witness :
  let body := [instance_hook Fixtures.Retried_before false;
               test_call Examples.one false []] in
  let later := [test_call Examples.one false []] in
  let run := run_callbacks (registry [Examples.container]) Fixtures.Retried
               (setup_instance :: body ++ teardown_instance :: later)
               not_created in
  fst run = cleared
  /\ snd run
     = snd (run_callbacks (registry [Examples.container]) Fixtures.Retried body
              (holds (constructed 0 "Retried")))
       ++ snd (run_callbacks (registry [Examples.container]) Fixtures.Retried
                 later cleared)
  /\ Forall (sees (holds (constructed 0 "Retried")))
       (snd (run_callbacks (registry [Examples.container]) Fixtures.Retried body
               (holds (constructed 0 "Retried"))))
  /\ Forall (sees cleared)
       (snd (run_callbacks (registry [Examples.container]) Fixtures.Retried
               later cleared)).
Proof.
  apply (instance_between_setup_and_teardown (registry [Examples.container])
           Fixtures.Retried (constructed 0 "Retried")); reflexivity.
Defined.

Lemma one_instance_per_test_witness :
  let schedule :=
    test_schedule (calls (suiteCallbackFromClass Fixtures.Retried []))
      (test_call Examples.one false []) in
  schedule = [setup_instance; instance_hook Fixtures.Retried_before false;
              test_call Examples.one false []; teardown_instance]
  /\ run_callbacks (registry []) Fixtures.Retried schedule cleared
     = (cleared,
        [invokes Fixtures.Retried_before
           (on_instance (holds (constructed 0 "Retried"))) false [];
         invokes Examples.one
           (on_instance (holds (constructed 0 "Retried"))) false []]).
Proof.
  apply (one_instance_per_test (registry []) Fixtures.Retried []
           (constructed 0 "Retried") Examples.one false [] cleared);
    reflexivity.
Defined.

Lemma suite_closure_registers_once_witness :
  let ctor :=
    fst (suite_closure None None Examples.traits Examples.SettingUpPackageIT
           [Examples.AbstractPackageITBase]) in
  snd (apply_suite_result None (returns_closure None Examples.traits)
         Examples.SettingUpPackageIT [Examples.AbstractPackageITBase])
  = [runner_class_suite "SettingUpPackageIT" ctor [Examples.AbstractPackageITBase]
       (getSettings (inherited_ctor ctor [Examples.AbstractPackageITBase]))]
  /\ suiteSymbol ctor = true
  /\ suite_class_callback
       (snd (suite_closure None None Examples.traits Examples.SettingUpPackageIT
               [Examples.AbstractPackageITBase]))
     = suiteCallbackFromClass Examples.SettingUpPackageIT
         [Examples.AbstractPackageITBase].
Proof.
  apply (suite_closure_registers_once None None Examples.traits
           Examples.SettingUpPackageIT [Examples.AbstractPackageITBase]).
  unfold Examples.traits.
  constructor; [left; exists timeoutKey, 200000%Z; reflexivity|].
  constructor; [left; exists slowKey, 10000%Z; reflexivity|].
  constructor.
Defined.

(** The settings of that suite: both traits arrive. *)
Example SettingUpPackageIT_settings :
  settings_of_suite
    (snd (suite_closure None None Examples.traits Examples.SettingUpPackageIT
            [Examples.AbstractPackageITBase]))
  = Some (mkSettings (Some 10000%Z) (Some 200000%Z) None None).
Proof. reflexivity. Qed.
